(** * SpaceX launch records dashboard (spacex-dash-app.py)

    A shallow embedding of the dashboard script: the start-up code that
    locates and loads the CSV table and derives the slider statistics, and
    the two Dash callbacks [build_pie] and [update_scatter] that filter and
    aggregate the table and hand the result to plotly express.

    Conventions of the embedding.
    - Numbers that Python holds as floats (payload masses, slider values)
      are exact rationals [Q]; comparisons are those of the rationals.
    - A data frame is the ordered list of its rows; every cell of a row is
      present (no missing values).
    - A Python exception is the [inl] of a result; module-level code and
      callbacks run in a state-and-exception monad over the state they can
      reach (the file system and its access log at start-up, the module
      globals in a callback). *)

From Stdlib Require Import Ascii String QArith Qround Lqa.
From stdpp Require Import base gmap list strings sorting pretty.

Local Open Scope Z_scope.
Local Open Scope string_scope.

(** ** Python values, exceptions and the monad of effects *)

Module Py.

Inductive Exception :=
| FileNotFoundError (msg : string)
| IsADirectoryError (msg : string)
| ValueError (msg : string).

Definition Result (A : Type) : Type := Exception + A.

(** Computations over a state [S] that may raise. *)
Definition M (S A : Type) : Type := S → Result A * S.

Definition ret {S A} (a : A) : M S A := λ s, (inr a, s).
Definition bind {S A B} (c : M S A) (k : A → M S B) : M S B :=
  λ s, match c s with
       | (inl e, s') => (inl e, s')
       | (inr a, s') => k a s'
       end.
Definition raise {S A} (e : Exception) : M S A := λ s, (inl e, s).
Definition get {S} : M S S := λ s, (inr s, s).
Definition modify {S} (f : S → S) : M S unit := λ s, (inr tt, f s).
Definition lift {S A} (r : Result A) : M S A := λ s, (r, s).

(** [int(x)] on a float: truncation toward zero; [nan] raises. *)
Definition trunc (q : Q) : Z := Z.quot (Qnum q) (Zpos (Qden q)).
Definition int (x : option Q) : Result Z :=
  match x with
  | Some q => inr (trunc q)
  | None => inl (ValueError "cannot convert float NaN to integer")
  end.

(** [str(x)] where [x] is a string or [None]. *)
Definition str_opt (x : option string) : string :=
  match x with Some s => s | None => "None" end.

(** [os.path.join(a, b)] on a POSIX system. *)
Definition is_abs (p : string) : bool :=
  match p with String c _ => bool_decide (c = "/"%char) | EmptyString => false end.
Fixpoint ends_with_slash (p : string) : bool :=
  match p with
  | EmptyString => false
  | String c EmptyString => bool_decide (c = "/"%char)
  | String _ p' => ends_with_slash p'
  end.
Definition os_path_join (a b : string) : string :=
  if is_abs b then b
  else if bool_decide (a = "") || ends_with_slash a then a ++ b
  else a ++ "/" ++ b.

End Py.

#[export] Instance M_ret {S} : MRet (Py.M S) := λ A, Py.ret.
#[export] Instance M_bind {S} : MBind (Py.M S) := λ A B k c, Py.bind c k.

(** ** Data model: the launch table *)

(** The categorical outcome label, categories ['Failure', 'Success']. *)
Inductive Outcome := Failure | Success.

#[export] Instance Outcome_eq_dec : EqDecision Outcome.
Proof. solve_decision. Defined.

(** A row of the CSV file as [pd.read_csv] delivers it (the columns the
    script touches). *)
Record CsvRow := {
  csv_flight_number : Z;
  csv_launch_site : string;
  csv_class : Q;
  csv_payload_mass : Q;
  csv_booster_version_category : string
}.

(** A row of [spacex_df] after pre-processing: 'class' is an integer and
    the 'Outcome' column has been added ([None] is the missing category). *)
Record LaunchRecord := {
  flight_number : Z;
  launch_site : string;
  class : Z;
  payload_mass : Q;
  booster_version_category : string;
  outcome : option Outcome
}.

(** ** The operating system: files and the log of accesses to them *)

Module OS.
Import Py.

Inductive FsNode :=
| CsvFile (rows : list CsvRow)
| Directory.

Inductive IOEvent :=
| EvExists (path : string)
| EvReadCsv (path : string).

Record World := {
  fs : gmap string FsNode;
  io_log : list IOEvent
}.

Definition record (ev : IOEvent) (w : World) : World :=
  {| fs := fs w; io_log := io_log w ++ [ev] |}.

(** [os.path.exists(path)] *)
Definition os_path_exists (path : string) : M World bool :=
  λ w, (inr (bool_decide (is_Some (fs w !! path))), record (EvExists path) w).

(** [pd.read_csv(path)] *)
Definition read_csv (path : string) : M World (list CsvRow) :=
  λ w, (match fs w !! path with
        | Some (CsvFile rows) => inr rows
        | Some Directory =>
            inl (IsADirectoryError ("[Errno 21] Is a directory: '" ++ path ++ "'"))
        | None =>
            inl (FileNotFoundError
                   ("[Errno 2] No such file or directory: '" ++ path ++ "'"))
        end, record (EvReadCsv path) w).

End OS.

(** ** The part of pandas the script uses *)

Module Pandas.
Import Py.

(** [Series.astype(int)] on one cell. *)
Definition astype_int (q : Q) : Z := trunc q.

(** [Series.map(d)] on one cell: keys absent from the dict give NaN. *)
Definition map_dict (d : gmap Z string) (c : Z) : option string := d !! c.

(** [pd.Categorical(values, categories=['Failure', 'Success'],
    ordered=True)] on one cell: a value outside the categories is NaN. *)
Definition Categorical (v : option string) : option Outcome :=
  match v with
  | Some s => if decide (s = "Failure") then Some Failure
              else if decide (s = "Success") then Some Success
              else None
  | None => None
  end.

(** [df[mask]] with a boolean mask. *)
Fixpoint select {A} (rows : list A) (mask : list bool) : list A :=
  match rows, mask with
  | r :: rows', b :: mask' =>
      if b then r :: select rows' mask' else select rows' mask'
  | _, _ => []
  end.

Definition getitem_mask {A} (df : list A) (mask : list bool) : Result (list A) :=
  if decide (length mask = length df) then inr (select df mask)
  else inl (ValueError "Item wrong length").

(** [mask1 & mask2] *)
Fixpoint mask_and (m1 m2 : list bool) : list bool :=
  match m1, m2 with
  | b1 :: m1', b2 :: m2' => (b1 && b2) :: mask_and m1' m2'
  | _, _ => []
  end.

(** [Series.unique()]: the distinct values in order of first appearance. *)
Fixpoint unique_from (seen col : list string) : list string :=
  match col with
  | [] => []
  | x :: col' =>
      if decide (x ∈ seen) then unique_from seen col'
      else x :: unique_from (x :: seen) col'
  end.
Definition unique (col : list string) : list string := unique_from [] col.

(** The order of Python strings, and [sorted] on a list of them. *)
Definition str_le (a b : string) : Prop := String.leb a b = true.
#[export] Instance str_le_dec a b : Decision (str_le a b).
Proof. unfold str_le. apply _. Defined.
Definition sorted (l : list string) : list string := merge_sort str_le l.

(** [df.groupby(key).size().reset_index(name='counts')]: one row per
    distinct key, keys in sorted order, with the size of the group. *)
Definition group_size {A} (key : A → string) (df : list A) (k : string) : nat :=
  length (filter (λ r, key r = k) df).
Definition groupby_size {A} (key : A → string) (df : list A) : list (string * nat) :=
  (λ k, (k, group_size key df k)) <$> sorted (unique (key <$> df)).

(** [Series.min()], [Series.max()]: NaN ([None]) on an empty column. *)
Definition min (col : list Q) : option Q :=
  match col with
  | [] => None
  | x :: xs => Some (fold_left (λ m y, if Qle_bool m y then m else y) xs x)
  end.
Definition max (col : list Q) : option Q :=
  match col with
  | [] => None
  | x :: xs => Some (fold_left (λ m y, if Qle_bool y m then m else y) xs x)
  end.

(** [Series.quantile(p)] with the default linear interpolation between
    the two order statistics around position [(n - 1) * p]. *)
Definition Q_le (a b : Q) : Prop := Qle_bool a b = true.
#[export] Instance Q_le_dec a b : Decision (Q_le a b).
Proof. unfold Q_le. apply _. Defined.
Definition quantile (col : list Q) (p : Q) : option Q :=
  let s := merge_sort Q_le col in
  match s with
  | [] => None
  | x0 :: _ =>
      let pos := (inject_Z (Z.of_nat (length s) - 1) * p)%Q in
      let lo := Qfloor pos in
      let frac := (pos - inject_Z lo)%Q in
      let a := default x0 (s !! Z.to_nat lo) in
      let b := default a (s !! (Z.to_nat lo + 1)%nat) in
      Some (a + (b - a) * frac)%Q
  end.

End Pandas.

(** ** The part of plotly express the script uses

    A figure is the chart specification that the callbacks return: the data
    frame handed to plotly express, the column names and options of the
    call, and the later updates of layout, axes and traces. *)

Module Plotly.
Import Py.

Inductive Cell :=
| CInt (z : Z)
| CFloat (q : Q)
| CStr (s : string)
| CCat (o : option Outcome).

#[export] Instance Q_eq_dec : EqDecision Q.
Proof. solve_decision. Defined.
#[export] Instance Cell_eq_dec : EqDecision Cell.
Proof. solve_decision. Defined.

(** The two shapes of frame that reach a chart: rows of the launch table,
    and the per-site counts of a group-by. *)
Inductive DataFrame :=
| Launches (rows : list LaunchRecord)
| Counts (rows : list (string * nat)).

Definition launch_columns : list (string * (LaunchRecord → Cell)) :=
  [ ("Flight Number", λ r, CInt (flight_number r));
    ("Launch Site", λ r, CStr (launch_site r));
    ("class", λ r, CInt (class r));
    ("Payload Mass (kg)", λ r, CFloat (payload_mass r));
    ("Booster Version Category", λ r, CStr (booster_version_category r));
    ("Outcome", λ r, CCat (outcome r)) ].

Definition counts_columns : list (string * (string * nat → Cell)) :=
  [ ("Launch Site", λ r, CStr (fst r));
    ("counts", λ r, CInt (Z.of_nat (snd r))) ].

Fixpoint assoc {V} (name : string) (cols : list (string * V)) : option V :=
  match cols with
  | [] => None
  | (n, v) :: cols' => if decide (n = name) then Some v else assoc name cols'
  end.

(** [df[name]] as a list of cells; [None] when the frame has no such column. *)
Definition column (df : DataFrame) (name : string) : option (list Cell) :=
  match df with
  | Launches rows => (λ f, f <$> rows) <$> assoc name launch_columns
  | Counts rows => (λ f, f <$> rows) <$> assoc name counts_columns
  end.

Definition n_rows (df : DataFrame) : nat :=
  match df with
  | Launches rows => length rows
  | Counts rows => length rows
  end.

Inductive ChartType := Pie | Scatter.

Record Figure := {
  chart : ChartType;
  data_frame : DataFrame;
  names : option string;
  values : option string;
  x : option string;
  y : option string;
  color : option string;
  symbol : option string;
  hover_data : list string;
  title : string;
  hole : option Q;
  opacity : option Q;
  color_discrete_map : gmap string string;
  title_x : option Q;
  marker_size : option Z;
  yaxis_categoryorder : option string;
  yaxis_categoryarray : list string
}.

(** plotly express raises [ValueError] when an argument names a column
    that the data frame does not have. *)
Definition has_columns (df : DataFrame) (cols : list string) : bool :=
  forallb (λ c, bool_decide (is_Some (column df c))) cols.

Definition column_error : Exception :=
  ValueError "Value of argument is not the name of a column in 'data_frame'".

Definition opt_list {A} (o : option A) : list A :=
  match o with Some a => [a] | None => [] end.

(** [px.pie(df, names=, values=, title=, color_discrete_map=, hole=)] *)
Definition px_pie (df : DataFrame) (names : string) (values : option string)
    (title : string) (color_discrete_map : gmap string string) (hole : Q)
    : Result Figure :=
  if has_columns df (names :: opt_list values) then
    inr {| chart := Pie; data_frame := df;
           names := Some names; values := values;
           x := None; y := None; color := None; symbol := None;
           hover_data := [];
           title := title; hole := Some hole; opacity := None;
           color_discrete_map := color_discrete_map;
           title_x := None; marker_size := None;
           yaxis_categoryorder := None; yaxis_categoryarray := [] |}
  else inl column_error.

(** [px.scatter(df, x=, y=, color=, symbol=, color_discrete_map=,
    hover_data=, title=, opacity=)] *)
Definition px_scatter (df : DataFrame) (x y color symbol : string)
    (color_discrete_map : gmap string string) (hover_data : list string)
    (title : string) (opacity : Q) : Result Figure :=
  if has_columns df (x :: y :: color :: symbol :: hover_data) then
    inr {| chart := Scatter; data_frame := df;
           names := None; values := None;
           x := Some x; y := Some y; color := Some color; symbol := Some symbol;
           hover_data := hover_data;
           title := title; hole := None; opacity := Some opacity;
           color_discrete_map := color_discrete_map;
           title_x := None; marker_size := None;
           yaxis_categoryorder := None; yaxis_categoryarray := [] |}
  else inl column_error.

(** [fig.update_layout(title_x=v)] *)
Definition update_layout (v : Q) (f : Figure) : Figure :=
  {| chart := chart f; data_frame := data_frame f;
     names := names f; values := values f;
     x := x f; y := y f; color := color f; symbol := symbol f;
     hover_data := hover_data f;
     title := title f; hole := hole f; opacity := opacity f;
     color_discrete_map := color_discrete_map f;
     title_x := Some v; marker_size := marker_size f;
     yaxis_categoryorder := yaxis_categoryorder f;
     yaxis_categoryarray := yaxis_categoryarray f |}.

(** [fig.update_yaxes(categoryorder=o, categoryarray=a)] *)
Definition update_yaxes (o : string) (a : list string) (f : Figure) : Figure :=
  {| chart := chart f; data_frame := data_frame f;
     names := names f; values := values f;
     x := x f; y := y f; color := color f; symbol := symbol f;
     hover_data := hover_data f;
     title := title f; hole := hole f; opacity := opacity f;
     color_discrete_map := color_discrete_map f;
     title_x := title_x f; marker_size := marker_size f;
     yaxis_categoryorder := Some o; yaxis_categoryarray := a |}.

(** [fig.update_traces(marker=dict(size=n))] *)
Definition update_traces (n : Z) (f : Figure) : Figure :=
  {| chart := chart f; data_frame := data_frame f;
     names := names f; values := values f;
     x := x f; y := y f; color := color f; symbol := symbol f;
     hover_data := hover_data f;
     title := title f; hole := hole f; opacity := opacity f;
     color_discrete_map := color_discrete_map f;
     title_x := title_x f; marker_size := Some n;
     yaxis_categoryorder := yaxis_categoryorder f;
     yaxis_categoryarray := yaxis_categoryarray f |}.

(** What a pie trace shows (plotly's documented rule for [labels] and
    [values]): the value of the sector of a label is the sum of the values
    of the rows that carry the label, or the number of such rows when the
    call named no values column. *)
Definition cell_weight (c : Cell) : Z :=
  match c with CInt z => z | _ => 0 end.

Fixpoint weighted_count (label : Cell) (labels : list Cell) (weights : list Z) : Z :=
  match labels, weights with
  | l :: labels', w :: weights' =>
      (if decide (l = label) then w else 0) + weighted_count label labels' weights'
  | _, _ => 0
  end.

Definition pie_sector (f : Figure) (label : Cell) : option Z :=
  ns ← names f;
  labels ← column (data_frame f) ns;
  match values f with
  | Some vs =>
      ws ← column (data_frame f) vs;
      Some (weighted_count label labels (cell_weight <$> ws))
  | None =>
      Some (Z.of_nat (length (filter (λ l, l = label) labels)))
  end.

End Plotly.

(** ** The script: module-level code *)

Import Py OS.

(** The components of [app.layout] that carry state. *)
Record Dropdown := {
  dd_id : string;
  dd_options : list (string * string);   (* (label, value) *)
  dd_value : option string;
  dd_placeholder : string;
  dd_searchable : bool
}.

Record RangeSlider := {
  rs_id : string;
  rs_min : Z;
  rs_max : Z;
  rs_step : Z;
  rs_value : list Z;
  rs_marks : gmap Z string
}.

Record Layout := {
  site_dropdown_component : Dropdown;
  payload_slider_component : RangeSlider;
  graph_ids : list string
}.

(** The module globals once the script has run. *)
Record Globals := {
  DATA_PATH : string;
  spacex_df : list LaunchRecord;
  min_payload : Z;
  max_payload : Z;
  q1 : Z;
  q2 : Z;
  q3 : Z;
  site_options : list (string * string);
  app_title : string;
  app_layout : Layout
}.

Definition OUTCOME_COLORS : gmap string string :=
  <["Failure" := "#EF553B"]> (<["Success" := "#00cc96"]> ∅).

(** The dict of [spacex_df['class'].map({1: 'Success', 0: 'Failure'})]. *)
Definition class_labels : gmap Z string :=
  <[0 := "Failure"]> (<[1 := "Success"]> ∅).

(** Lines 17-21: 'class' becomes an integer column, 'Outcome' is added as
    an ordered categorical. *)
Definition preprocess_row (r : CsvRow) : LaunchRecord :=
  let c := Pandas.astype_int (csv_class r) in
  {| flight_number := csv_flight_number r;
     launch_site := csv_launch_site r;
     class := c;
     payload_mass := csv_payload_mass r;
     booster_version_category := csv_booster_version_category r;
     outcome := Pandas.Categorical (Pandas.map_dict class_labels c) |}.

Definition preprocess (rows : list CsvRow) : list LaunchRecord :=
  preprocess_row <$> rows.

Definition missing_file_message (path : string) : string :=
  "Could not find data file at " ++ path ++
  ". Make sure 'spacex_launch_dash.csv' is in the project folder.".

(** Lines 27-31: the payload statistics for the slider. *)
Definition payload_stats (df : list LaunchRecord) : Result (Z * Z * (Z * Z * Z)) :=
  let col := payload_mass <$> df in
  match int (Pandas.min col), int (Pandas.max col) with
  | inl e, _ => inl e
  | _, inl e => inl e
  | inr mn, inr mx =>
      match int (Pandas.quantile col (1 # 4)),
            int (Pandas.quantile col (1 # 2)),
            int (Pandas.quantile col (3 # 4)) with
      | inr a, inr b, inr c => inr (mn, mx, (a, b, c))
      | inl e, _, _ => inl e
      | _, inl e, _ => inl e
      | _, _, inl e => inl e
      end
  end.

(** Lines 38-40 *)
Definition build_site_options (df : list LaunchRecord) : list (string * string) :=
  ("All Sites", "ALL") ::
  ((λ s, (s, s)) <$> Pandas.sorted (Pandas.unique (launch_site <$> df))).

(** Lines 42-83 *)
Definition build_layout (options : list (string * string)) (mn mx a b c : Z) : Layout :=
  {| site_dropdown_component :=
       {| dd_id := "site-dropdown"; dd_options := options;
          dd_value := Some "ALL";
          dd_placeholder := "Select a Launch Site here";
          dd_searchable := true |};
     payload_slider_component :=
       {| rs_id := "payload-slider"; rs_min := mn; rs_max := mx;
          rs_step := 1000;
          rs_value := [mn; mx];
          rs_marks := <[mx := pretty mx]> (<[c := pretty c]> (<[b := pretty b]>
                      (<[a := pretty a]> (<[mn := pretty mn]> ∅)))) |};
     graph_ids := ["success-pie-chart"; "success-payload-scatter-chart"] |}.

(** The globals that the script has bound when it reaches the callbacks. *)
Definition make_globals (path : string) (df : list LaunchRecord)
    (mn mx a b c : Z) : Globals :=
  let options := build_site_options df in
  {| DATA_PATH := path; spacex_df := df;
     min_payload := mn; max_payload := mx; q1 := a; q2 := b; q3 := c;
     site_options := options;
     app_title := "SpaceX Launch Records Dashboard";
     app_layout := build_layout options mn mx a b c |}.

(** The script from its first line to the definition of the layout;
    [file_dir] is [os.path.dirname(__file__)]. *)
Definition module_init (file_dir : string) : M World Globals :=
  let path := os_path_join file_dir "spacex_launch_dash.csv" in
  found ← os_path_exists path;
  if negb found then raise (FileNotFoundError (missing_file_message path))
  else
    raw ← read_csv path;
    let df := preprocess raw in
    '(mn, mx, (a, b, c)) ← lift (payload_stats df);
    mret (make_globals path df mn mx a b c).

(** ** The callbacks *)

Import Plotly.

(** [a, b = xs] *)
Definition unpack2 {A} (xs : list A) : Result (A * A) :=
  match xs with
  | [a; b] => inr (a, b)
  | [] | [_] => inl (ValueError "not enough values to unpack (expected 2)")
  | _ => inl (ValueError "too many values to unpack (expected 2)")
  end.

(** [site_dropdown] is the value of the drop-down: a site name, 'ALL', or
    [None] when the selection has been cleared. *)
Definition build_pie (site_dropdown : option string) : M Globals Figure :=
  g ← get;
  fig ← (if decide (site_dropdown = Some "ALL") then
           successes ← lift (Pandas.getitem_mask (spacex_df g)
                               ((λ c, bool_decide (c = 1)) <$> (class <$> spacex_df g)));
           let success_counts := Pandas.groupby_size launch_site successes in
           lift (px_pie (Counts success_counts) "Launch Site" (Some "counts")
                   "Total Successful Launches by Site" ∅ (3 # 10))
         else
           specific ← lift (Pandas.getitem_mask (spacex_df g)
                              ((λ s, bool_decide (Some s = site_dropdown)) <$>
                                 (launch_site <$> spacex_df g)));
           lift (px_pie (Launches specific) "Outcome" None
                   ("Success vs Failure for " ++ str_opt site_dropdown)
                   OUTCOME_COLORS (3 # 10)));
  mret (update_layout (1 # 2) fig).

Definition update_scatter (site_dropdown : option string) (payload_range : list Q)
    : M Globals Figure :=
  g ← get;
  '(low, high) ← lift (unpack2 payload_range);
  let col := payload_mass <$> spacex_df g in
  let mask := Pandas.mask_and ((λ p, Qle_bool low p) <$> col)
                              ((λ p, Qle_bool p high) <$> col) in
  df_filtered ← lift (Pandas.getitem_mask (spacex_df g) mask);
  df_filtered ← (if decide (site_dropdown ≠ Some "ALL") then
                   lift (Pandas.getitem_mask df_filtered
                           ((λ s, bool_decide (Some s = site_dropdown)) <$>
                              (launch_site <$> df_filtered)))
                 else mret df_filtered);
  fig ← lift (px_scatter (Launches df_filtered) "Payload Mass (kg)" "Outcome"
                "Outcome" "Booster Version Category" OUTCOME_COLORS
                ["Flight Number"; "Launch Site"; "Payload Mass (kg)"]
                "Payload vs. Launch Outcome" (13 # 20));
  let fig := update_yaxes "array" ["Failure"; "Success"] fig in
  let fig := update_traces 12 fig in
  mret (update_layout (1 # 2) fig).

(** ** The wiring of the callbacks

    [@app.callback(Output(graph, 'figure'), Input(...))]: the state of the
    two controls, and which of them each graph's callback receives. *)
Record Controls := {
  site_dropdown_value : option string;
  payload_slider_value : list Q
}.

Inductive Graph := success_pie_chart | success_payload_scatter_chart.

Definition dispatch (out : Graph) (ui : Controls) : M Globals Figure :=
  match out with
  | success_pie_chart => build_pie (site_dropdown_value ui)
  | success_payload_scatter_chart =>
      update_scatter (site_dropdown_value ui) (payload_slider_value ui)
  end.

(** The controls as the layout initialises them. *)
Definition initial_controls (g : Globals) : Controls :=
  {| site_dropdown_value := dd_value (site_dropdown_component (app_layout g));
     payload_slider_value :=
       inject_Z <$> rs_value (payload_slider_component (app_layout g)) |}.

(** A session: the callbacks that the browser triggers, one after another.
    Dash reports a callback that raises and goes on serving. *)
Fixpoint serve (requests : list (Graph * Controls)) (g : Globals)
    : list (Result Figure) * Globals :=
  match requests with
  | [] => ([], g)
  | (out, ui) :: rest =>
      let '(r, g') := dispatch out ui g in
      let '(rs, g'') := serve rest g' in
      (r :: rs, g'')
  end.

(** ** The properties of records that the specification speaks of *)

#[export] Instance Qle_dec (a b : Q) : Decision (a <= b)%Q.
Proof. unfold Qle. apply _. Defined.

(** The payload mass lies in the inclusive interval [low, high]. *)
Definition in_payload_range (low high : Q) (r : LaunchRecord) : Prop :=
  (low <= payload_mass r)%Q ∧ (payload_mass r <= high)%Q.

(** The record's 'Launch Site' equals the selected value. *)
Definition at_site (site : option string) (r : LaunchRecord) : Prop :=
  Some (launch_site r) = site.

(** The record has a successful outcome. *)
Definition successful (r : LaunchRecord) : Prop := class r = 1.

(** The record has a failed outcome. *)
Definition failed (r : LaunchRecord) : Prop := class r = 0.

#[export] Instance in_payload_range_dec low high r :
  Decision (in_payload_range low high r).
Proof. unfold in_payload_range. apply _. Defined.
#[export] Instance at_site_dec site r : Decision (at_site site r).
Proof. unfold at_site. apply _. Defined.
#[export] Instance successful_dec r : Decision (successful r).
Proof. unfold successful. apply _. Defined.
#[export] Instance failed_dec r : Decision (failed r).
Proof. unfold failed. apply _. Defined.

(** [z] is the integer part of [q]: the integer next to [q] on the side
    of zero. *)
Definition is_integer_part (q : Q) (z : Z) : Prop :=
  ((0 <= q)%Q → (inject_Z z <= q)%Q ∧ (q < inject_Z (z + 1))%Q) ∧
  ((q <= 0)%Q → (inject_Z (z - 1) < q)%Q ∧ (q <= inject_Z z)%Q).

(** The table is the result of the script's pre-processing. *)
Definition preprocessed (df : list LaunchRecord) : Prop :=
  ∃ raw, df = preprocess raw.

(** ** The figures that the callbacks build *)

(** The scatter figure for a frame of launch records. *)
Definition scatter_figure (rows : list LaunchRecord) : Figure :=
  update_layout (1 # 2) (update_traces 12
    (update_yaxes "array" ["Failure"; "Success"]
       {| chart := Scatter; data_frame := Launches rows;
          names := None; values := None;
          x := Some "Payload Mass (kg)"; y := Some "Outcome";
          color := Some "Outcome"; symbol := Some "Booster Version Category";
          hover_data := ["Flight Number"; "Launch Site"; "Payload Mass (kg)"];
          title := "Payload vs. Launch Outcome";
          hole := None; opacity := Some (13 # 20);
          color_discrete_map := OUTCOME_COLORS;
          title_x := None; marker_size := None;
          yaxis_categoryorder := None; yaxis_categoryarray := [] |})).

(** The pie of the per-site success counts. *)
Definition all_sites_pie (counts : list (string * nat)) : Figure :=
  update_layout (1 # 2)
    {| chart := Pie; data_frame := Counts counts;
       names := Some "Launch Site"; values := Some "counts";
       x := None; y := None; color := None; symbol := None;
       hover_data := [];
       title := "Total Successful Launches by Site";
       hole := Some (3 # 10); opacity := None;
       color_discrete_map := ∅;
       title_x := None; marker_size := None;
       yaxis_categoryorder := None; yaxis_categoryarray := [] |}.

(** The pie of the outcomes of the records of one site. *)
Definition one_site_pie (site : option string) (rows : list LaunchRecord) : Figure :=
  update_layout (1 # 2)
    {| chart := Pie; data_frame := Launches rows;
       names := Some "Outcome"; values := None;
       x := None; y := None; color := None; symbol := None;
       hover_data := [];
       title := "Success vs Failure for " ++ str_opt site;
       hole := Some (3 # 10); opacity := None;
       color_discrete_map := OUTCOME_COLORS;
       title_x := None; marker_size := None;
       yaxis_categoryorder := None; yaxis_categoryarray := [] |}.

(** The records that the scatter chart shows for a site selection and a
    payload range. *)
Definition shown_in_scatter (site : option string) (low high : Q)
    (r : LaunchRecord) : Prop :=
  in_payload_range low high r ∧ (site ≠ Some "ALL" → at_site site r).

#[export] Instance shown_in_scatter_dec site low high r :
  Decision (shown_in_scatter site low high r).
Proof. unfold shown_in_scatter. apply _. Defined.

(** ** A small table, for running the script on

    Three launches from two sites; the heaviest payload, 9600.5 kg, is not
    a whole number of kilograms. *)
Definition example_csv : list CsvRow :=
  [ {| csv_flight_number := 1; csv_launch_site := "KSC LC-39A";
       csv_class := 1; csv_payload_mass := 2500;
       csv_booster_version_category := "FT" |};
    {| csv_flight_number := 2; csv_launch_site := "CCAFS LC-40";
       csv_class := 0; csv_payload_mass := 1 # 2;
       csv_booster_version_category := "v1.1" |};
    {| csv_flight_number := 3; csv_launch_site := "CCAFS LC-40";
       csv_class := 1; csv_payload_mass := 19201 # 2;
       csv_booster_version_category := "B4" |} ].

Definition example_world : World :=
  {| fs := {[ "/app/spacex_launch_dash.csv" := CsvFile example_csv ]};
     io_log := [] |}.

Definition empty_world : World := {| fs := ∅; io_log := [] |}.

Definition example_globals : Globals :=
  make_globals "/app/spacex_launch_dash.csv" (preprocess example_csv)
    0 9600 1250 2500 6050.

(** The heaviest launch of the example table. *)
Definition example_heaviest : LaunchRecord :=
  {| flight_number := 3; launch_site := "CCAFS LC-40"; class := 1;
     payload_mass := 19201 # 2; booster_version_category := "B4";
     outcome := Some Success |}.

(** The fixture of the specification: two launches from one site, one
    successful and one failed. *)
Definition fixture_csv : list CsvRow :=
  [ {| csv_flight_number := 1; csv_launch_site := "VAFB SLC-4E";
       csv_class := 1; csv_payload_mass := 500;
       csv_booster_version_category := "v1.1" |};
    {| csv_flight_number := 2; csv_launch_site := "VAFB SLC-4E";
       csv_class := 0; csv_payload_mass := 9600;
       csv_booster_version_category := "FT" |} ].

Definition fixture_globals : Globals :=
  make_globals "/app/spacex_launch_dash.csv" (preprocess fixture_csv)
    500 9600 2775 5050 7325.

(** ** Reading a figure *)

(** The launch records of the frame of a figure. *)
Definition launch_rows (fig : Figure) : list LaunchRecord :=
  match data_frame fig with
  | Launches rows => rows
  | Counts _ => []
  end.

(** The records that [update_scatter] charts for a selection and a range. *)
Definition scatter_rows (g : Globals) (site : option string) (low high : Q)
    : list LaunchRecord :=
  match (update_scatter site [low; high] g).1 with
  | inr fig => launch_rows fig
  | inl _ => []
  end.

(** The file system in which the script finds the fixture. *)
Definition fixture_world : World :=
  {| fs := {[ "/app/spacex_launch_dash.csv" := CsvFile fixture_csv ]};
     io_log := [] |}.

(** * Facts about the pandas operations *)

Section pandas_facts.
Context {A : Type}.
Implicit Types (df : list A) (f : A → bool).

Lemma select_fmap (P : A → Prop) `{!∀ r, Decision (P r)} f df :
  (∀ r, f r = true ↔ P r) →
  Pandas.select df (f <$> df) = filter P df.
Proof.
  intros Hf. induction df as [|r df IH]; [done|].
  cbn [fmap list_fmap Pandas.select]. rewrite filter_cons, IH.
  destruct (f r) eqn:E.
  - rewrite decide_True; [done|]. by apply Hf.
  - rewrite decide_False; [done|]. intros HP. apply Hf in HP. congruence.
Qed.

Lemma getitem_mask_fmap (P : A → Prop) `{!∀ r, Decision (P r)} f df :
  (∀ r, f r = true ↔ P r) →
  Pandas.getitem_mask df (f <$> df) = inr (filter P df).
Proof.
  intros Hf. unfold Pandas.getitem_mask.
  rewrite decide_True by apply length_fmap.
  by rewrite (select_fmap P).
Qed.

Lemma mask_and_fmap f1 f2 df :
  Pandas.mask_and (f1 <$> df) (f2 <$> df) = (λ r, f1 r && f2 r) <$> df.
Proof. induction df as [|r df IH]; [done|]. cbn. by rewrite IH. Qed.

End pandas_facts.

(** The masks of the two callbacks select the records that the predicates
    of the specification describe. *)
Lemma payload_mask_spec (low high : Q) (df : list LaunchRecord) :
  Pandas.getitem_mask df
    (Pandas.mask_and ((λ p, Qle_bool low p) <$> (payload_mass <$> df))
                     ((λ p, Qle_bool p high) <$> (payload_mass <$> df)))
  = inr (filter (in_payload_range low high) df).
Proof.
  rewrite <- !list_fmap_compose, mask_and_fmap.
  apply getitem_mask_fmap. intros r. cbn. unfold in_payload_range.
  rewrite andb_true_iff, !Qle_bool_iff. done.
Qed.

Lemma site_mask_spec (site : option string) (df : list LaunchRecord) :
  Pandas.getitem_mask df
    ((λ s, bool_decide (Some s = site)) <$> (launch_site <$> df))
  = inr (filter (at_site site) df).
Proof.
  rewrite <- list_fmap_compose. apply getitem_mask_fmap.
  intros r. cbn. unfold at_site. by rewrite bool_decide_eq_true.
Qed.

Lemma class_mask_spec (df : list LaunchRecord) :
  Pandas.getitem_mask df ((λ c, bool_decide (c = 1)) <$> (class <$> df))
  = inr (filter successful df).
Proof.
  rewrite <- list_fmap_compose. apply getitem_mask_fmap.
  intros r. cbn. unfold successful. by rewrite bool_decide_eq_true.
Qed.

(** * The callbacks, run *)

Lemma update_scatter_run (site : option string) (low high : Q) (g : Globals) :
  update_scatter site [low; high] g =
  (inr (scatter_figure
          (if decide (site ≠ Some "ALL")
           then filter (at_site site) (filter (in_payload_range low high) (spacex_df g))
           else filter (in_payload_range low high) (spacex_df g))), g).
Proof.
  unfold update_scatter, mbind, M_bind, bind, get, lift. cbn [unpack2].
  rewrite payload_mask_spec.
  destruct (decide (site ≠ Some "ALL")) as [Hs|Hs].
  - rewrite site_mask_spec. reflexivity.
  - reflexivity.
Qed.

Lemma build_pie_run (site : option string) (g : Globals) :
  build_pie site g =
  (inr (if decide (site = Some "ALL")
        then all_sites_pie
               (Pandas.groupby_size launch_site (filter successful (spacex_df g)))
        else one_site_pie site (filter (at_site site) (spacex_df g))), g).
Proof.
  unfold build_pie, mbind, M_bind, bind, get, lift.
  destruct (decide (site = Some "ALL")) as [Hs|Hs].
  - rewrite class_mask_spec. reflexivity.
  - rewrite site_mask_spec. reflexivity.
Qed.

Lemma update_scatter_state (site : option string) (range : list Q) (g : Globals) :
  (update_scatter site range g).2 = g.
Proof.
  destruct range as [|low [|high [|more range]]];
    [reflexivity | reflexivity | | reflexivity].
  by rewrite update_scatter_run.
Qed.

Lemma scatter_rows_filter (site : option string) (low high : Q)
    (df : list LaunchRecord) :
  (if decide (site ≠ Some "ALL")
   then filter (at_site site) (filter (in_payload_range low high) df)
   else filter (in_payload_range low high) df)
  = filter (shown_in_scatter site low high) df.
Proof.
  unfold shown_in_scatter. destruct (decide (site ≠ Some "ALL")) as [Hs|Hs].
  - rewrite list_filter_filter. apply list_filter_iff. intros r. tauto.
  - apply list_filter_iff. intros r. tauto.
Qed.

(** * The filters of the scatter chart *)

(** C1. For every payload range [low, high] and every site selection,
    [update_scatter] hands plotly a frame whose records all have a payload
    mass between [low] and [high] inclusive; conversely every record of
    the table with a payload mass in the range, and with the selected site
    when the selection is not 'ALL', is in that frame. The frame is the
    table filtered by these two conditions, in the table's order. *)
Theorem update_scatter_payload_range (g : Globals) (site : option string)
    (low high : Q) :
  ∃ fig rows,
    update_scatter site [low; high] g = (inr fig, g) ∧
    data_frame fig = Launches rows ∧
    (∀ r, r ∈ rows → (low <= payload_mass r)%Q ∧ (payload_mass r <= high)%Q) ∧
    (∀ r, r ∈ spacex_df g →
          (low <= payload_mass r)%Q → (payload_mass r <= high)%Q →
          (site ≠ Some "ALL" → Some (launch_site r) = site) →
          r ∈ rows) ∧
    rows = filter (shown_in_scatter site low high) (spacex_df g).
Proof.
  eexists _, (filter (shown_in_scatter site low high) (spacex_df g)).
  split; [|split; [|split; [|split]]].
  - rewrite update_scatter_run, scatter_rows_filter. reflexivity.
  - reflexivity.
  - intros r [[Hr _] _]%list_elem_of_filter. exact Hr.
  - intros r Hin Hlo Hhi Hsite. apply list_elem_of_filter.
    split; [|done]. split; [by split|]. exact Hsite.
  - reflexivity.
Qed.

(** C2. With a specific site name selected (anything but 'ALL'), the site
    filter of either callback returns exactly the records whose 'Launch
    Site' equals the name, in order: [build_pie] filters the table,
    [update_scatter] filters the payload-filtered table. With 'ALL'
    selected, [update_scatter] leaves the payload-filtered table as it is. *)
Theorem site_filter_spec (g : Globals) (low high : Q) (s : string) :
  s ≠ "ALL" →
  (∃ fig rows,
      build_pie (Some s) g = (inr fig, g) ∧ data_frame fig = Launches rows ∧
      rows = filter (λ r, launch_site r = s) (spacex_df g) ∧
      ∀ r, r ∈ rows → launch_site r = s) ∧
  (∃ fig rows,
      update_scatter (Some s) [low; high] g = (inr fig, g) ∧
      data_frame fig = Launches rows ∧
      rows = filter (λ r, launch_site r = s)
               (filter (in_payload_range low high) (spacex_df g)) ∧
      ∀ r, r ∈ rows → launch_site r = s) ∧
  (∃ fig,
      update_scatter (Some "ALL") [low; high] g = (inr fig, g) ∧
      data_frame fig = Launches (filter (in_payload_range low high) (spacex_df g))).
Proof.
  intros Hs.
  assert (Hne : Some s ≠ Some "ALL") by congruence.
  assert (Hfilter : ∀ df : list LaunchRecord,
             filter (at_site (Some s)) df = filter (λ r, launch_site r = s) df).
  { intros df. apply list_filter_iff. intros r. unfold at_site.
    split; congruence. }
  split; [|split].
  - eexists _, _. rewrite build_pie_run, decide_False by done.
    split; [reflexivity|]. split; [reflexivity|]. split; [apply Hfilter|].
    intros r [Hr _]%list_elem_of_filter. unfold at_site in Hr. congruence.
  - eexists _, _. rewrite update_scatter_run, decide_True by done.
    split; [reflexivity|]. split; [reflexivity|]. split; [apply Hfilter|].
    intros r [Hr _]%list_elem_of_filter. unfold at_site in Hr. congruence.
  - eexists. rewrite update_scatter_run, decide_False by (intros H; by apply H).
    split; reflexivity.
Qed.

Lemma site_filter_spec_witness :
  "KSC LC-39A" ≠ "ALL" ∧
  ∃ fig rows,
    build_pie (Some "KSC LC-39A") example_globals = (inr fig, example_globals) ∧
    data_frame fig = Launches rows ∧
    rows = filter (λ r, launch_site r = "KSC LC-39A") (spacex_df example_globals) ∧
    ∀ r, r ∈ rows → launch_site r = "KSC LC-39A".
Proof.
  split; [discriminate|].
  apply (site_filter_spec example_globals 0 10000 "KSC LC-39A"). discriminate.
Defined.

(** * Grouping and counting *)

Section groupby_facts.
Context {A : Type} (key : A → string).
Implicit Types (df : list A) (keys col seen : list string).

Lemma elem_of_unique_from seen col k :
  k ∈ Pandas.unique_from seen col ↔ k ∈ col ∧ k ∉ seen.
Proof.
  revert seen. induction col as [|c col IH]; intros seen; cbn.
  - rewrite elem_of_nil. tauto.
  - destruct (decide (c ∈ seen)) as [Hc|Hc].
    + rewrite IH, elem_of_cons. split; [tauto|].
      intros [[->|Hk] Hn]; tauto.
    + rewrite !elem_of_cons, IH, elem_of_cons.
      destruct (decide (k = c)) as [->|Hkc]; tauto.
Qed.

Lemma NoDup_unique_from seen col : NoDup (Pandas.unique_from seen col).
Proof.
  revert seen. induction col as [|c col IH]; intros seen; cbn.
  - constructor.
  - destruct (decide (c ∈ seen)); [apply IH|].
    apply NoDup_cons. split; [|apply IH].
    rewrite elem_of_unique_from, elem_of_cons. tauto.
Qed.

Lemma elem_of_unique col k : k ∈ Pandas.unique col ↔ k ∈ col.
Proof.
  unfold Pandas.unique. rewrite elem_of_unique_from, elem_of_nil. tauto.
Qed.

Lemma sorted_Permutation keys : Pandas.sorted keys ≡ₚ keys.
Proof. apply merge_sort_Permutation. Qed.

Lemma group_keys_NoDup df : NoDup (Pandas.sorted (Pandas.unique (key <$> df))).
Proof.
  rewrite sorted_Permutation. apply NoDup_unique_from.
Qed.

Lemma elem_of_group_keys df k :
  k ∈ Pandas.sorted (Pandas.unique (key <$> df)) ↔ ∃ r, r ∈ df ∧ key r = k.
Proof.
  rewrite sorted_Permutation, elem_of_unique, list_elem_of_fmap.
  split; intros (r & H1 & H2); exists r; split; done.
Qed.

Lemma groupby_size_keys df :
  (Pandas.groupby_size key df).*1 = Pandas.sorted (Pandas.unique (key <$> df)).
Proof.
  unfold Pandas.groupby_size. rewrite <- list_fmap_compose.
  apply list_fmap_id.
Qed.

Lemma groupby_size_sizes df :
  (Pandas.groupby_size key df).*2 =
  Pandas.group_size key df <$> Pandas.sorted (Pandas.unique (key <$> df)).
Proof.
  unfold Pandas.groupby_size. by rewrite <- list_fmap_compose.
Qed.

Lemma elem_of_groupby_size df k n :
  (k, n) ∈ Pandas.groupby_size key df →
  n = Pandas.group_size key df k ∧ ∃ r, r ∈ df ∧ key r = k.
Proof.
  unfold Pandas.groupby_size. rewrite list_elem_of_fmap.
  intros (k' & Heq & Hin). injection Heq as -> ->.
  split; [done|]. by apply elem_of_group_keys.
Qed.

Lemma group_size_cons r df k :
  Pandas.group_size key (r :: df) k =
  ((if decide (key r = k) then 1 else 0) + Pandas.group_size key df k)%nat.
Proof.
  unfold Pandas.group_size. rewrite filter_cons.
  destruct (decide (key r = k)); reflexivity.
Qed.

(** Over a duplicate-free list of keys, exactly one key is that of a row. *)
Lemma indicator_sum keys k0 :
  NoDup keys →
  sum_list_with (λ k, if decide (k0 = k) then 1 else 0)%nat keys =
  if decide (k0 ∈ keys) then 1%nat else 0%nat.
Proof.
  induction 1 as [|k keys Hk Hnd IH]; [done|]. cbn. rewrite IH.
  destruct (decide (k0 = k)) as [->|Hne].
  - rewrite (decide_False (P := k ∈ keys)) by done.
    rewrite decide_True by apply list_elem_of_here. done.
  - destruct (decide (k0 ∈ keys)) as [Hin|Hin].
    + rewrite decide_True by (by apply list_elem_of_further). done.
    + rewrite decide_False; [done|].
      rewrite elem_of_cons. tauto.
Qed.

(** The sizes of the groups add up to the number of rows. *)
Lemma group_sizes_sum keys df :
  NoDup keys → (∀ r, r ∈ df → key r ∈ keys) →
  sum_list_with (Pandas.group_size key df) keys = length df.
Proof.
  intros Hnd. induction df as [|r df IH]; intros Hcover.
  - induction keys as [|k keys IHk]; [done|].
    cbn. apply IHk. by apply NoDup_cons in Hnd as [_ ?]. intros ? []%elem_of_nil.
  - transitivity
      (sum_list_with (λ k, if decide (key r = k) then 1 else 0)%nat keys
       + sum_list_with (Pandas.group_size key df) keys)%nat.
    + clear. induction keys as [|k keys IHk]; [done|].
      cbn [sum_list_with]. rewrite IHk, group_size_cons. lia.
    + rewrite indicator_sum by done.
      rewrite decide_True by (apply Hcover, list_elem_of_here).
      rewrite IH; [done|]. intros r' Hr'. apply Hcover. by apply list_elem_of_further.
Qed.

Lemma groupby_size_total df :
  sum_list (Pandas.groupby_size key df).*2 = length df.
Proof.
  rewrite groupby_size_sizes.
  rewrite <- (group_sizes_sum (Pandas.sorted (Pandas.unique (key <$> df))) df).
  - generalize (Pandas.sorted (Pandas.unique (key <$> df))).
    intros l. induction l as [|k l IHl]; [done|]. cbn. by rewrite IHl.
  - apply group_keys_NoDup.
  - intros r Hr. apply elem_of_group_keys. by exists r.
Qed.

End groupby_facts.

(** The sector of a site in a pie over a counts frame whose sites are
    distinct is the count of that site. *)
Lemma weighted_count_counts (counts : list (string * nat)) (s : string) (n : nat) :
  NoDup counts.*1 → (s, n) ∈ counts →
  weighted_count (CStr s) ((λ r, CStr r.1) <$> counts)
    (cell_weight <$> ((λ r, CInt (Z.of_nat r.2)) <$> counts)) = Z.of_nat n.
Proof.
  assert (Hzero : ∀ cs : list (string * nat), s ∉ cs.*1 →
            weighted_count (CStr s) ((λ r, CStr r.1) <$> cs)
              (cell_weight <$> ((λ r, CInt (Z.of_nat r.2)) <$> cs)) = 0).
  { induction cs as [|[k m] cs IH]; [done|]. cbn.
    rewrite elem_of_cons. intros Hn.
    rewrite decide_False by (intros [= ->]; tauto).
    rewrite IH by tauto. done. }
  induction counts as [|[k m] counts IH]; [by intros _ []%elem_of_nil|].
  cbn. rewrite NoDup_cons, elem_of_cons. intros [Hk Hnd] [[= <- <-]|Hin].
  - rewrite decide_True by done. rewrite Hzero by done. lia.
  - rewrite decide_False.
    + rewrite IH by done. done.
    + intros [= ->]. apply Hk. apply list_elem_of_fmap. by exists (s, n).
Qed.

(** * The pie chart of all sites *)

Lemma successes_at_site (df : list LaunchRecord) (s : string) :
  Pandas.group_size launch_site (filter successful df) s =
  length (filter (λ r, class r = 1 ∧ launch_site r = s) df).
Proof.
  unfold Pandas.group_size. rewrite list_filter_filter. f_equal.
  apply list_filter_iff. intros r. unfold successful. tauto.
Qed.

Lemma pie_sector_all_sites (counts : list (string * nat)) (label : Cell) :
  pie_sector (all_sites_pie counts) label =
  Some (weighted_count label ((λ r, CStr r.1) <$> counts)
          (cell_weight <$> ((λ r, CInt (Z.of_nat r.2)) <$> counts))).
Proof. reflexivity. Qed.

(** C3. With 'ALL' selected, [build_pie] charts a frame with one row per
    launch site that has a successful record (class = 1), no site twice,
    and the count of each site is the number of successful records of the
    table with that site; the pie shows that count as the site's sector. *)
Theorem all_sites_success_counts (g : Globals) :
  ∃ fig counts,
    build_pie (Some "ALL") g = (inr fig, g) ∧
    data_frame fig = Counts counts ∧
    names fig = Some "Launch Site" ∧ values fig = Some "counts" ∧
    NoDup counts.*1 ∧
    (∀ s, s ∈ counts.*1 ↔ ∃ r, r ∈ spacex_df g ∧ class r = 1 ∧ launch_site r = s) ∧
    (∀ s n, (s, n) ∈ counts →
       n = length (filter (λ r, class r = 1 ∧ launch_site r = s) (spacex_df g)) ∧
       pie_sector fig (CStr s) = Some (Z.of_nat n)).
Proof.
  eexists _, (Pandas.groupby_size launch_site (filter successful (spacex_df g))).
  rewrite build_pie_run, decide_True by done.
  split; [reflexivity|]. split; [reflexivity|].
  split; [reflexivity|]. split; [reflexivity|].
  rewrite groupby_size_keys. split; [apply group_keys_NoDup|]. split.
  - intros s. rewrite elem_of_group_keys. split.
    + intros (r & [Hc Hr]%list_elem_of_filter & Hs). by exists r.
    + intros (r & Hr & Hc & Hs). exists r. split; [|done].
      by apply list_elem_of_filter.
  - intros s n Hin. split.
    + apply elem_of_groupby_size in Hin as [-> _]. apply successes_at_site.
    + rewrite pie_sector_all_sites. f_equal. apply weighted_count_counts; [|done].
      rewrite groupby_size_keys. apply group_keys_NoDup.
Qed.

(** C5. The per-site success counts of the 'ALL' pie add up to the number
    of records of the table with class = 1. *)
Theorem success_counts_total (g : Globals) :
  ∃ fig counts,
    build_pie (Some "ALL") g = (inr fig, g) ∧
    data_frame fig = Counts counts ∧
    sum_list counts.*2 = length (filter (λ r, class r = 1) (spacex_df g)).
Proof.
  eexists _, (Pandas.groupby_size launch_site (filter successful (spacex_df g))).
  rewrite build_pie_run, decide_True by done.
  split; [reflexivity|]. split; [reflexivity|].
  rewrite groupby_size_total. f_equal.
Qed.

(** * The pie chart of one site *)

Lemma outcome_of_class (c : Z) :
  Pandas.Categorical (Pandas.map_dict class_labels c) =
  if decide (c = 1) then Some Success
  else if decide (c = 0) then Some Failure else None.
Proof.
  unfold Pandas.map_dict, class_labels.
  destruct (decide (c = 1)) as [->|H1]; [reflexivity|].
  destruct (decide (c = 0)) as [->|H0]; [reflexivity|].
  rewrite !lookup_insert_ne by done. reflexivity.
Qed.

Lemma preprocessed_outcome (df : list LaunchRecord) (r : LaunchRecord) :
  preprocessed df → r ∈ df →
  (outcome r = Some Success ↔ class r = 1) ∧
  (outcome r = Some Failure ↔ class r = 0).
Proof.
  intros [raw ->] (row & -> & _)%list_elem_of_fmap.
  cbn. rewrite outcome_of_class.
  repeat case_decide; split; split; intros; (congruence || lia).
Qed.

Lemma length_filter_fmap {A B} `{EqDecision B} (f : A → B) (b : B) (l : list A) :
  length (filter (λ y, y = b) (f <$> l)) = length (filter (λ x, f x = b) l).
Proof.
  induction l as [|a l IH]; [done|].
  cbn [fmap list_fmap]. rewrite !filter_cons.
  destruct (decide (f a = b)); cbn; by rewrite IH.
Qed.

Lemma length_filter_ext_in {A} (P1 P2 : A → Prop)
    `{!∀ x, Decision (P1 x), !∀ x, Decision (P2 x)} (l : list A) :
  (∀ x, x ∈ l → P1 x ↔ P2 x) →
  length (filter P1 l) = length (filter P2 l).
Proof.
  induction l as [|a l IH]; intros Hext; [done|].
  rewrite !filter_cons.
  assert (Ha : P1 a ↔ P2 a) by apply Hext, list_elem_of_here.
  assert (IH' := IH (λ x Hx, Hext x (list_elem_of_further _ _ _ Hx))).
  destruct (decide (P1 a)), (decide (P2 a)); cbn; (lia || tauto).
Qed.

Lemma pie_sector_one_site (site : option string) (rows : list LaunchRecord)
    (o : option Outcome) :
  pie_sector (one_site_pie site rows) (CCat o) =
  Some (Z.of_nat (length (filter (λ r, outcome r = o) rows))).
Proof.
  change (pie_sector (one_site_pie site rows) (CCat o))
    with (Some (Z.of_nat (length
            (filter (λ l, l = CCat o) ((λ r, CCat (outcome r)) <$> rows))))).
  rewrite length_filter_fmap. do 3 f_equal.
  apply list_filter_iff. intros r. split; congruence.
Qed.

(** C4. With one site selected, the pie that [build_pie] returns has a
    Success sector counting the records of the site with class = 1 and a
    Failure sector counting those with class = 0. In particular, when the
    table is two records of that site, one with class = 1 and one with
    class = 0, the sectors are Success = 1 and Failure = 1. *)
Theorem one_site_outcome_counts (g : Globals) (site : option string) :
  preprocessed (spacex_df g) → site ≠ Some "ALL" →
  ∃ fig,
    build_pie site g = (inr fig, g) ∧
    pie_sector fig (CCat (Some Success)) =
      Some (Z.of_nat (length
        (filter (λ r, Some (launch_site r) = site ∧ class r = 1) (spacex_df g)))) ∧
    pie_sector fig (CCat (Some Failure)) =
      Some (Z.of_nat (length
        (filter (λ r, Some (launch_site r) = site ∧ class r = 0) (spacex_df g)))) ∧
    (∀ r1 r2, spacex_df g = [r1; r2] →
       Some (launch_site r1) = site → Some (launch_site r2) = site →
       class r1 = 1 → class r2 = 0 →
       pie_sector fig (CCat (Some Success)) = Some 1 ∧
       pie_sector fig (CCat (Some Failure)) = Some 1).
Proof.
  intros Hpre Hsite. eexists.
  rewrite build_pie_run, decide_False by done.
  split; [reflexivity|].
  assert (Hsector : ∀ o c,
            (∀ r, r ∈ spacex_df g → outcome r = o ↔ class r = c) →
            pie_sector (one_site_pie site (filter (at_site site) (spacex_df g)))
              (CCat o) =
            Some (Z.of_nat (length
              (filter (λ r, Some (launch_site r) = site ∧ class r = c) (spacex_df g))))).
  { intros o c Ho. rewrite pie_sector_one_site, list_filter_filter.
    do 2 f_equal. apply length_filter_ext_in. intros r Hr.
    unfold at_site. rewrite (Ho r Hr). tauto. }
  assert (HS := Hsector (Some Success) 1
                  (λ r Hr, proj1 (preprocessed_outcome _ r Hpre Hr))).
  assert (HF := Hsector (Some Failure) 0
                  (λ r Hr, proj2 (preprocessed_outcome _ r Hpre Hr))).
  split; [exact HS|]. split; [exact HF|].
  intros r1 r2 Hdf Hs1 Hs2 Hc1 Hc2. rewrite HS, HF, Hdf.
  rewrite !filter_cons, filter_nil.
  rewrite (decide_True (P := Some (launch_site r1) = site ∧ class r1 = 1)) by done.
  rewrite (decide_False (P := Some (launch_site r2) = site ∧ class r2 = 1)) by lia.
  rewrite (decide_False (P := Some (launch_site r1) = site ∧ class r1 = 0)) by lia.
  rewrite (decide_True (P := Some (launch_site r2) = site ∧ class r2 = 0)) by done.
  done.
Qed.

Lemma one_site_outcome_counts_witness :
  preprocessed (spacex_df fixture_globals) ∧
  Some "VAFB SLC-4E" ≠ Some "ALL" ∧
  ∃ fig,
    build_pie (Some "VAFB SLC-4E") fixture_globals = (inr fig, fixture_globals) ∧
    pie_sector fig (CCat (Some Success)) = Some 1 ∧
    pie_sector fig (CCat (Some Failure)) = Some 1.
Proof.
  assert (Hpre : preprocessed (spacex_df fixture_globals))
    by (exists fixture_csv; reflexivity).
  assert (Hsite : Some "VAFB SLC-4E" ≠ Some "ALL") by discriminate.
  split; [exact Hpre|]. split; [exact Hsite|].
  destruct (one_site_outcome_counts fixture_globals (Some "VAFB SLC-4E") Hpre Hsite)
    as (fig & Hrun & _ & _ & Hfix).
  exists fig. split; [exact Hrun|].
  eapply Hfix; reflexivity.
Defined.

(** * Start-up *)

(** C7. When the CSV file is absent, the script stops with
    [FileNotFoundError] carrying the message that names the path, having
    only asked whether the file exists: nothing is read. When the path
    exists, the script goes on to read it. *)
Theorem missing_file_is_fatal (file_dir : string) (w : World) :
  let path := os_path_join file_dir "spacex_launch_dash.csv" in
  (fs w !! path = None →
     module_init file_dir w =
       (inl (FileNotFoundError
               ("Could not find data file at " ++ path ++
                ". Make sure 'spacex_launch_dash.csv' is in the project folder.")),
        {| fs := fs w; io_log := io_log w ++ [EvExists path] |})) ∧
  (is_Some (fs w !! path) →
     io_log (module_init file_dir w).2 =
       (io_log w ++ [EvExists path; EvReadCsv path])%list) ∧
  (∀ p, EvReadCsv p ∈ io_log (module_init file_dir w).2 →
        EvReadCsv p ∈ io_log w ∨ is_Some (fs w !! path)).
Proof.
  intros path.
  assert (Habsent : fs w !! path = None →
            module_init file_dir w =
              (inl (FileNotFoundError (missing_file_message path)),
               record (EvExists path) w)).
  { intros Hnone. unfold module_init, mbind, M_bind, bind, os_path_exists.
    cbv zeta. fold path. rewrite Hnone. reflexivity. }
  assert (Hpresent : is_Some (fs w !! path) →
            io_log (module_init file_dir w).2 =
              (io_log w ++ [EvExists path; EvReadCsv path])%list).
  { intros Hsome. unfold module_init, mbind, M_bind, bind, os_path_exists, read_csv.
    cbv zeta. fold path. cbn [fs record].
    rewrite bool_decide_eq_true_2 by done. cbn [negb fs record].
    destruct Hsome as [node Hnode]. rewrite Hnode.
    destruct node as [rows|]; cbn.
    - unfold lift. destruct (payload_stats (preprocess rows)) as [e|[[mn mx] [[a b] c]]];
        cbn; by rewrite <- app_assoc.
    - by rewrite <- app_assoc. }
  split; [exact Habsent|]. split; [exact Hpresent|].
  intros p Hp. destruct (fs w !! path) as [node|] eqn:Hnode.
  - right. by eexists.
  - left. rewrite Habsent in Hp by done. cbn in Hp.
    apply elem_of_app in Hp as [Hp|Hp]; [done|].
    apply list_elem_of_singleton in Hp. discriminate.
Qed.

Lemma missing_file_is_fatal_witness :
  fs empty_world !! os_path_join "/app" "spacex_launch_dash.csv" = None ∧
  module_init "/app" empty_world =
    (inl (FileNotFoundError
            "Could not find data file at /app/spacex_launch_dash.csv. Make sure 'spacex_launch_dash.csv' is in the project folder."),
     {| fs := ∅; io_log := [EvExists "/app/spacex_launch_dash.csv"] |}).
Proof.
  assert (H : fs empty_world !! os_path_join "/app" "spacex_launch_dash.csv" = None)
    by reflexivity.
  split; [exact H|].
  exact (proj1 (missing_file_is_fatal "/app" empty_world) H).
Defined.

Lemma payload_stats_inv (df : list LaunchRecord) (mn mx a b c : Z) :
  payload_stats df = inr (mn, mx, (a, b, c)) →
  ∃ qmin qmax,
    Pandas.min (payload_mass <$> df) = Some qmin ∧
    Pandas.max (payload_mass <$> df) = Some qmax ∧
    mn = trunc qmin ∧ mx = trunc qmax.
Proof.
  unfold payload_stats. cbv zeta.
  destruct (Pandas.min (payload_mass <$> df)) as [qmin|]; [|discriminate].
  destruct (Pandas.max (payload_mass <$> df)) as [qmax|]; [|discriminate].
  cbn [int].
  destruct (int (Pandas.quantile (payload_mass <$> df) (1 # 4))) as [?|a']; [discriminate|].
  destruct (int (Pandas.quantile (payload_mass <$> df) (1 # 2))) as [?|b']; [discriminate|].
  destruct (int (Pandas.quantile (payload_mass <$> df) (3 # 4))) as [?|c']; [discriminate|].
  intros [= <- <- _ _ _]. by exists qmin, qmax.
Qed.

Lemma module_init_inv (file_dir : string) (w w' : World) (g : Globals) :
  module_init file_dir w = (inr g, w') →
  ∃ raw mn mx a b c,
    fs w !! os_path_join file_dir "spacex_launch_dash.csv" = Some (CsvFile raw) ∧
    payload_stats (preprocess raw) = inr (mn, mx, (a, b, c)) ∧
    g = make_globals (os_path_join file_dir "spacex_launch_dash.csv")
          (preprocess raw) mn mx a b c.
Proof.
  unfold module_init, mbind, M_bind, bind, os_path_exists, read_csv. cbv zeta.
  set (path := os_path_join file_dir "spacex_launch_dash.csv").
  destruct (fs w !! path) as [[raw|]|] eqn:Hnode; cbn [fs record].
  - rewrite bool_decide_eq_true_2 by (by eexists). cbn [negb fs record].
    rewrite Hnode. unfold lift.
    destruct (payload_stats (preprocess raw)) as [e|[[mn mx] [[a b] c]]] eqn:Hstats;
      [discriminate|].
    intros [= <- _]. by exists raw, mn, mx, a, b, c.
  - rewrite bool_decide_eq_true_2 by (by eexists). cbn [negb fs record].
    rewrite Hnode. discriminate.
  - rewrite bool_decide_eq_false_2 by (by intros [? ?]). discriminate.
Qed.

(** * The table does not change *)

Lemma dispatch_state (out : Graph) (ui : Controls) (g : Globals) :
  (dispatch out ui g).2 = g.
Proof.
  destruct out; cbn [dispatch].
  - by rewrite build_pie_run.
  - apply update_scatter_state.
Qed.

Lemma serve_state (requests : list (Graph * Controls)) (g : Globals) :
  (serve requests g).2 = g.
Proof.
  induction requests as [|[out ui] rest IH]; [done|].
  cbn [serve]. pose proof (dispatch_state out ui g) as Hd.
  destruct (dispatch out ui g) as [r g']. cbn in Hd. subst g'.
  destruct (serve rest g) as [rs g'']. cbn in IH. by subst g''.
Qed.

(** C8. Every invocation of [build_pie] and of [update_scatter], and every
    sequence of them, leaves the module globals, and so the table, as they
    were: afterwards each callback returns what it returned before, and the
    payload statistics and the per-site success counts recomputed from the
    table are the same. The statistics bound at start-up are those of the
    table. *)
Theorem table_is_immutable (g : Globals) :
  (∀ site, (build_pie site g).2 = g) ∧
  (∀ site range, (update_scatter site range g).2 = g) ∧
  (∀ requests,
     (serve requests g).2 = g ∧
     spacex_df (serve requests g).2 = spacex_df g ∧
     payload_stats (spacex_df (serve requests g).2) = payload_stats (spacex_df g) ∧
     Pandas.groupby_size launch_site (filter successful (spacex_df (serve requests g).2))
       = Pandas.groupby_size launch_site (filter successful (spacex_df g)) ∧
     ∀ out ui, dispatch out ui (serve requests g).2 = dispatch out ui g) ∧
  (∀ file_dir w w',
     module_init file_dir w = (inr g, w') →
     payload_stats (spacex_df g) =
       inr (min_payload g, max_payload g, (q1 g, q2 g, q3 g))).
Proof.
  split; [|split; [|split]].
  - intros site. by rewrite build_pie_run.
  - intros site range. apply update_scatter_state.
  - intros requests. rewrite serve_state. done.
  - intros file_dir w w' Hinit.
    apply module_init_inv in Hinit as (raw & mn & mx & a & b & c & _ & Hstats & ->).
    exact Hstats.
Qed.

Lemma table_is_immutable_witness :
  module_init "/app" example_world =
    (inr example_globals,
     {| fs := fs example_world;
        io_log := [EvExists "/app/spacex_launch_dash.csv";
                   EvReadCsv "/app/spacex_launch_dash.csv"] |}) ∧
  payload_stats (spacex_df example_globals) = inr (0, 9600, (1250, 2500, 6050)) ∧
  (serve [(success_pie_chart, initial_controls example_globals);
          (success_payload_scatter_chart, initial_controls example_globals)]
     example_globals).2 = example_globals.
Proof.
  assert (H : module_init "/app" example_world =
    (inr example_globals,
     {| fs := fs example_world;
        io_log := [EvExists "/app/spacex_launch_dash.csv";
                   EvReadCsv "/app/spacex_launch_dash.csv"] |}))
    by (vm_compute; reflexivity).
  split; [exact H|].
  destruct (table_is_immutable example_globals) as (_ & _ & Hserve & Hstats).
  split.
  - exact (Hstats _ _ _ H).
  - apply Hserve.
Defined.

(** * Truncation, minimum, maximum and quantiles *)

Lemma trunc_inject_Z (z : Z) : trunc (inject_Z z) = z.
Proof. unfold trunc. cbn. apply Z.quot_1_r. Qed.

Lemma trunc_nonneg (q : Q) : (0 ≤ Qnum q)%Z → trunc q = Qfloor q.
Proof. destruct q as [n d]. cbn. intros. apply Z.quot_div_nonneg; lia. Qed.

Lemma trunc_neg (q : Q) : (Qnum q < 0)%Z → trunc q = Qceiling q.
Proof.
  destruct q as [n d]. unfold trunc, Qceiling. cbn. intros.
  rewrite <- (Z.opp_involutive n) at 1. rewrite Z.quot_opp_l by lia.
  f_equal. apply Z.quot_div_nonneg; lia.
Qed.

(** [int()] is monotone. *)
Lemma trunc_mono (p q : Q) : (p <= q)%Q → (trunc p ≤ trunc q)%Z.
Proof.
  intros Hle.
  destruct (Z_lt_le_dec (Qnum p) 0) as [Hp|Hp], (Z_lt_le_dec (Qnum q) 0) as [Hq|Hq].
  - rewrite !trunc_neg by done. by apply Qceiling_resp_le.
  - rewrite trunc_neg, trunc_nonneg by done.
    transitivity 0.
    + change 0 with (Qceiling 0). apply Qceiling_resp_le.
      destruct p as [n d]. unfold Qle. cbn in *. lia.
    + change 0 with (Qfloor 0). apply Qfloor_resp_le.
      destruct q as [n d]. unfold Qle. cbn in *. lia.
  - exfalso. destruct p as [n d], q as [n' d']. unfold Qle in Hle. cbn in *. nia.
  - rewrite !trunc_nonneg by done. by apply Qfloor_resp_le.
Qed.

Lemma fold_min_spec (xs : list Q) (x0 : Q) :
  let m := fold_left (λ m y, if Qle_bool m y then m else y) xs x0 in
  m ∈ x0 :: xs ∧ ∀ y, y ∈ x0 :: xs → (m <= y)%Q.
Proof.
  revert x0. induction xs as [|x xs IH]; intros x0; cbn.
  - split; [apply list_elem_of_here|].
    intros y ->%list_elem_of_singleton. apply Qle_refl.
  - destruct (Qle_bool x0 x) eqn:E.
    + destruct (IH x0) as [Hin Hle]. split.
      * apply elem_of_cons in Hin as [->|Hin]; [apply list_elem_of_here|].
        by do 2 apply list_elem_of_further.
      * intros y [->|[->|Hy]%elem_of_cons]%elem_of_cons.
        -- apply Hle, list_elem_of_here.
        -- eapply Qle_trans; [apply Hle, list_elem_of_here|]. by apply Qle_bool_iff.
        -- by apply Hle, list_elem_of_further.
    + destruct (IH x) as [Hin Hle]. split; [by apply list_elem_of_further|].
      assert (Hx : (x <= x0)%Q).
      { apply Qlt_le_weak, Qnot_le_lt. rewrite <- Qle_bool_iff. congruence. }
      intros y [->|[->|Hy]%elem_of_cons]%elem_of_cons.
      * eapply Qle_trans; [apply Hle, list_elem_of_here|done].
      * apply Hle, list_elem_of_here.
      * by apply Hle, list_elem_of_further.
Qed.

Lemma fold_max_spec (xs : list Q) (x0 : Q) :
  let m := fold_left (λ m y, if Qle_bool y m then m else y) xs x0 in
  m ∈ x0 :: xs ∧ ∀ y, y ∈ x0 :: xs → (y <= m)%Q.
Proof.
  revert x0. induction xs as [|x xs IH]; intros x0; cbn.
  - split; [apply list_elem_of_here|].
    intros y ->%list_elem_of_singleton. apply Qle_refl.
  - destruct (Qle_bool x x0) eqn:E.
    + destruct (IH x0) as [Hin Hle]. split.
      * apply elem_of_cons in Hin as [->|Hin]; [apply list_elem_of_here|].
        by do 2 apply list_elem_of_further.
      * intros y [->|[->|Hy]%elem_of_cons]%elem_of_cons.
        -- apply Hle, list_elem_of_here.
        -- eapply Qle_trans; [|apply Hle, list_elem_of_here]. by apply Qle_bool_iff.
        -- by apply Hle, list_elem_of_further.
    + destruct (IH x) as [Hin Hle]. split; [by apply list_elem_of_further|].
      assert (Hx : (x0 <= x)%Q).
      { apply Qlt_le_weak, Qnot_le_lt. rewrite <- Qle_bool_iff. congruence. }
      intros y [->|[->|Hy]%elem_of_cons]%elem_of_cons.
      * eapply Qle_trans; [done|apply Hle, list_elem_of_here].
      * apply Hle, list_elem_of_here.
      * by apply Hle, list_elem_of_further.
Qed.

Lemma min_spec (col : list Q) (m : Q) :
  Pandas.min col = Some m → m ∈ col ∧ ∀ y, y ∈ col → (m <= y)%Q.
Proof.
  destruct col as [|x xs]; [discriminate|]. intros [= <-]. apply fold_min_spec.
Qed.

Lemma max_spec (col : list Q) (m : Q) :
  Pandas.max col = Some m → m ∈ col ∧ ∀ y, y ∈ col → (y <= m)%Q.
Proof.
  destruct col as [|x xs]; [discriminate|]. intros [= <-]. apply fold_max_spec.
Qed.

Lemma between_convex (m M a b f : Q) :
  (m <= a)%Q → (a <= M)%Q → (m <= b)%Q → (b <= M)%Q → (0 <= f)%Q → (f <= 1)%Q →
  (m <= a + (b - a) * f)%Q ∧ (a + (b - a) * f <= M)%Q.
Proof. intros. split; nra. Qed.

(** A quantile lies between the minimum and the maximum of the column. *)
Lemma quantile_bounds (col : list Q) (p v mn mx : Q) :
  (0 <= p)%Q → (p <= 1)%Q →
  Pandas.min col = Some mn → Pandas.max col = Some mx →
  Pandas.quantile col p = Some v →
  (mn <= v)%Q ∧ (v <= mx)%Q.
Proof.
  intros Hp0 Hp1 [_ Hmin]%min_spec [_ Hmax]%max_spec.
  unfold Pandas.quantile.
  pose proof (@merge_sort_Permutation _ Pandas.Q_le Pandas.Q_le_dec col) as Hperm.
  destruct (merge_sort Pandas.Q_le col) as [|x0 s'] eqn:Hs; [discriminate|].
  cbv zeta. intros [= <-].
  set (s := x0 :: s') in *.
  set (pos := (inject_Z (Z.of_nat (length s) - 1) * p)%Q).
  assert (Hin : ∀ y, y ∈ s → (mn <= y)%Q ∧ (y <= mx)%Q).
  { intros y Hy. rewrite Hperm in Hy. split; [by apply Hmin|by apply Hmax]. }
  assert (Ha : default x0 (s !! Z.to_nat (Qfloor pos)) ∈ s).
  { destruct (s !! Z.to_nat (Qfloor pos)) as [a|] eqn:E; cbn.
    - by eapply list_elem_of_lookup_2.
    - apply list_elem_of_here. }
  set (a := default x0 (s !! Z.to_nat (Qfloor pos))) in *.
  assert (Hb : default a (s !! (Z.to_nat (Qfloor pos) + 1)%nat) ∈ s).
  { destruct (s !! (Z.to_nat (Qfloor pos) + 1)%nat) as [b|] eqn:E; cbn.
    - by eapply list_elem_of_lookup_2.
    - done. }
  set (b := default a (s !! (Z.to_nat (Qfloor pos) + 1)%nat)) in *.
  destruct (Hin a Ha) as [Ha1 Ha2]. destruct (Hin b Hb) as [Hb1 Hb2].
  pose proof (Qfloor_le pos) as Hf0. pose proof (Qlt_floor pos) as Hf1.
  rewrite inject_Z_plus in Hf1.
  set (fl := inject_Z (Qfloor pos)) in *.
  assert (0 <= pos - fl)%Q by lra.
  assert (pos - fl <= 1)%Q by (change (inject_Z 1) with 1%Q in Hf1; lra).
  by apply between_convex.
Qed.

(** [int()] gives the integer part, and nothing else does. *)
Lemma trunc_integer_part (q : Q) : is_integer_part q (trunc q).
Proof.
  split; intros Hq.
  - rewrite trunc_nonneg.
    + split; [apply Qfloor_le|apply Qlt_floor].
    + destruct q as [n d]. unfold Qle in Hq. cbn in *. lia.
  - destruct (Z_lt_le_dec (Qnum q) 0) as [Hn|Hn].
    + rewrite trunc_neg by done. split; [apply Qceiling_lt|apply Qle_ceiling].
    + assert (Hn0 : Qnum q = 0).
      { destruct q as [n d]. unfold Qle in Hq. cbn in *. lia. }
      destruct q as [n d]. cbn in Hn0. subst n.
      unfold trunc. cbn [Qnum Qden]. rewrite Z.quot_0_l by lia.
      split; [unfold Qlt|unfold Qle]; cbn; lia.
Qed.

Lemma integer_part_unique (q : Q) (z z' : Z) :
  is_integer_part q z → is_integer_part q z' → z = z'.
Proof.
  intros [H1 H2] [H1' H2'].
  destruct (Qlt_le_dec q 0) as [Hq|Hq].
  - apply Qlt_le_weak in Hq.
    destruct (H2 Hq) as [A B], (H2' Hq) as [A' B'].
    assert (inject_Z (z - 1) < inject_Z z')%Q by (by eapply Qlt_le_trans).
    assert (inject_Z (z' - 1) < inject_Z z)%Q by (by eapply Qlt_le_trans).
    rewrite <- Zlt_Qlt in *. lia.
  - destruct (H1 Hq) as [A B], (H1' Hq) as [A' B'].
    assert (inject_Z z < inject_Z (z' + 1))%Q by (by eapply Qle_lt_trans).
    assert (inject_Z z' < inject_Z (z + 1))%Q by (by eapply Qle_lt_trans).
    rewrite <- Zlt_Qlt in *. lia.
Qed.

Lemma trunc_eq_iff (q : Q) (z : Z) : trunc q = z ↔ is_integer_part q z.
Proof.
  split.
  - intros <-. apply trunc_integer_part.
  - intros H. eapply integer_part_unique; [apply trunc_integer_part|done].
Qed.



(** * The pie chart and the payload slider *)

(** C9. The callback of the pie chart receives the site selection only:
    whatever the payload slider is set to, [build_pie] returns the same
    figure. With one site selected the pie is over every record of that
    site, of whatever payload mass, and its sectors count them all. *)
Theorem pie_ignores_payload_range (g : Globals) (site : option string)
    (range1 range2 : list Q) :
  dispatch success_pie_chart
    {| site_dropdown_value := site; payload_slider_value := range1 |} g
  = dispatch success_pie_chart
      {| site_dropdown_value := site; payload_slider_value := range2 |} g ∧
  (site ≠ Some "ALL" →
   ∃ fig rows,
     dispatch success_pie_chart
       {| site_dropdown_value := site; payload_slider_value := range1 |} g
     = (inr fig, g) ∧
     data_frame fig = Launches rows ∧
     (∀ r, r ∈ spacex_df g → Some (launch_site r) = site → r ∈ rows) ∧
     ∀ o, pie_sector fig (CCat o) =
          Some (Z.of_nat (length
            (filter (λ r, Some (launch_site r) = site ∧ outcome r = o)
               (spacex_df g))))).
Proof.
  split; [reflexivity|].
  intros Hsite. cbn [dispatch site_dropdown_value].
  eexists _, _. rewrite build_pie_run, decide_False by done.
  split; [reflexivity|]. split; [reflexivity|]. split.
  - intros r Hr Hs. apply list_elem_of_filter. by split.
  - intros o. rewrite pie_sector_one_site, list_filter_filter.
    do 3 f_equal. apply list_filter_iff. intros r. unfold at_site. tauto.
Qed.

Lemma pie_ignores_payload_range_witness :
  Some "CCAFS LC-40" ≠ Some "ALL" ∧
  ∃ fig,
    dispatch success_pie_chart
      {| site_dropdown_value := Some "CCAFS LC-40";
         payload_slider_value := [0; 1]%Q |} example_globals
    = (inr fig, example_globals) ∧
    pie_sector fig (CCat (Some Success)) = Some 1 ∧
    pie_sector fig (CCat (Some Failure)) = Some 1.
Proof.
  assert (Hsite : Some "CCAFS LC-40" ≠ Some "ALL") by discriminate.
  split; [exact Hsite|].
  destruct (proj2 (pie_ignores_payload_range example_globals (Some "CCAFS LC-40")
                     [0; 1]%Q []) Hsite)
    as (fig & rows & Hrun & _ & _ & Hsector).
  exists fig. split; [exact Hrun|].
  split; rewrite Hsector; reflexivity.
Defined.

(** C10. The slider's bounds and its initial value are the minimum and
    the maximum payload mass of the table, each cut to its integer part by
    [int()]: the table has a record of least and a record of greatest
    payload mass, and the bounds are the integer parts of their masses.
    So a record of greatest payload mass is left out of the scatter chart
    at the initial setting whenever the integer part of its mass is below
    the mass, and there is a table where this happens: one whose maximum
    payload mass is not an integer. *)
Theorem slider_bounds_truncated :
  (∀ file_dir w w' g,
     module_init file_dir w = (inr g, w') →
     ∃ rmin rmax,
       rmin ∈ spacex_df g ∧ rmax ∈ spacex_df g ∧
       (∀ r, r ∈ spacex_df g →
             (payload_mass rmin <= payload_mass r)%Q ∧
             (payload_mass r <= payload_mass rmax)%Q) ∧
       Pandas.min (payload_mass <$> spacex_df g) = Some (payload_mass rmin) ∧
       Pandas.max (payload_mass <$> spacex_df g) = Some (payload_mass rmax) ∧
       is_integer_part (payload_mass rmin) (min_payload g) ∧
       is_integer_part (payload_mass rmax) (max_payload g) ∧
       min_payload g = trunc (payload_mass rmin) ∧
       max_payload g = trunc (payload_mass rmax) ∧
       rs_min (payload_slider_component (app_layout g)) = min_payload g ∧
       rs_max (payload_slider_component (app_layout g)) = max_payload g ∧
       rs_value (payload_slider_component (app_layout g))
         = [min_payload g; max_payload g] ∧
       initial_controls g =
         {| site_dropdown_value := Some "ALL";
            payload_slider_value :=
              [inject_Z (min_payload g); inject_Z (max_payload g)] |}) ∧
  (∀ file_dir w w' g r fig rows,
     module_init file_dir w = (inr g, w') →
     r ∈ spacex_df g →
     (∀ r', r' ∈ spacex_df g → (payload_mass r' <= payload_mass r)%Q) →
     (∀ z, is_integer_part (payload_mass r) z → (inject_Z z < payload_mass r)%Q) →
     dispatch success_payload_scatter_chart (initial_controls g) g = (inr fig, g) →
     data_frame fig = Launches rows →
     r ∉ rows) ∧
  (∀ file_dir w w' g r fig rows,
     module_init file_dir w = (inr g, w') →
     Pandas.max (payload_mass <$> spacex_df g) = Some (payload_mass r) →
     (inject_Z (trunc (payload_mass r)) < payload_mass r)%Q →
     dispatch success_payload_scatter_chart (initial_controls g) g = (inr fig, g) →
     data_frame fig = Launches rows →
     r ∉ rows) ∧
  (∃ file_dir w w' g r fig rows,
     module_init file_dir w = (inr g, w') ∧
     r ∈ spacex_df g ∧
     (∀ r', r' ∈ spacex_df g → (payload_mass r' <= payload_mass r)%Q) ∧
     Pandas.max (payload_mass <$> spacex_df g) = Some (payload_mass r) ∧
     (inject_Z (trunc (payload_mass r)) < payload_mass r)%Q ∧
     (∀ z, is_integer_part (payload_mass r) z → (inject_Z z < payload_mass r)%Q) ∧
     dispatch success_payload_scatter_chart (initial_controls g) g = (inr fig, g) ∧
     data_frame fig = Launches rows ∧
     r ∉ rows).
Proof.
  assert (Hbounds : ∀ file_dir w w' g,
     module_init file_dir w = (inr g, w') →
     ∃ rmin rmax,
       rmin ∈ spacex_df g ∧ rmax ∈ spacex_df g ∧
       (∀ r, r ∈ spacex_df g →
             (payload_mass rmin <= payload_mass r)%Q ∧
             (payload_mass r <= payload_mass rmax)%Q) ∧
       Pandas.min (payload_mass <$> spacex_df g) = Some (payload_mass rmin) ∧
       Pandas.max (payload_mass <$> spacex_df g) = Some (payload_mass rmax) ∧
       is_integer_part (payload_mass rmin) (min_payload g) ∧
       is_integer_part (payload_mass rmax) (max_payload g) ∧
       min_payload g = trunc (payload_mass rmin) ∧
       max_payload g = trunc (payload_mass rmax) ∧
       rs_min (payload_slider_component (app_layout g)) = min_payload g ∧
       rs_max (payload_slider_component (app_layout g)) = max_payload g ∧
       rs_value (payload_slider_component (app_layout g))
         = [min_payload g; max_payload g] ∧
       initial_controls g =
         {| site_dropdown_value := Some "ALL";
            payload_slider_value :=
              [inject_Z (min_payload g); inject_Z (max_payload g)] |}).
  { intros file_dir w w' g Hinit.
    apply module_init_inv in Hinit as (raw & mn & mx & a & b & c & _ & Hstats & ->).
    apply payload_stats_inv in Hstats as (qmin & qmax & Hmin & Hmax & -> & ->).
    cbn [spacex_df make_globals] in *.
    destruct (min_spec _ _ Hmin) as [Hmin_in Hmin_le].
    destruct (max_spec _ _ Hmax) as [Hmax_in Hmax_le].
    apply list_elem_of_fmap in Hmin_in as (rmin & -> & Hrmin).
    apply list_elem_of_fmap in Hmax_in as (rmax & -> & Hrmax).
    exists rmin, rmax. split; [exact Hrmin|]. split; [exact Hrmax|]. split.
    { intros r Hr. split.
      - apply Hmin_le, list_elem_of_fmap. by exists r.
      - apply Hmax_le, list_elem_of_fmap. by exists r. }
    split; [exact Hmin|]. split; [exact Hmax|].
    split; [apply trunc_integer_part|]. split; [apply trunc_integer_part|].
    repeat (split; [reflexivity|]). reflexivity. }
  assert (Hgreatest : ∀ file_dir w w' g r fig rows,
     module_init file_dir w = (inr g, w') →
     r ∈ spacex_df g →
     (∀ r', r' ∈ spacex_df g → (payload_mass r' <= payload_mass r)%Q) →
     (∀ z, is_integer_part (payload_mass r) z → (inject_Z z < payload_mass r)%Q) →
     dispatch success_payload_scatter_chart (initial_controls g) g = (inr fig, g) →
     data_frame fig = Launches rows →
     r ∉ rows).
  { intros file_dir w w' g r fig rows Hinit Hr Hgreat Hfrac Hrun Hframe Hin.
    destruct (Hbounds _ _ _ _ Hinit)
      as (rmin & rmax & _ & Hrmax & Hall & _ & _ & _ & _ & _ & Hmx & _ & _ & _ & Hui).
    rewrite Hui in Hrun.
    cbn [dispatch site_dropdown_value payload_slider_value] in Hrun.
    rewrite update_scatter_run, decide_False in Hrun by (intros H; by apply H).
    injection Hrun as <-. cbn in Hframe. injection Hframe as <-.
    apply list_elem_of_filter in Hin as [[_ Hhigh] _].
    assert (Heq : max_payload g = trunc (payload_mass r)).
    { rewrite Hmx. apply Z.le_antisymm; apply trunc_mono.
      - by apply Hgreat.
      - by apply Hall. }
    rewrite Heq in Hhigh.
    apply (Qle_not_lt _ _ Hhigh), Hfrac, trunc_integer_part. }
  assert (Hout : ∀ file_dir w w' g r fig rows,
     module_init file_dir w = (inr g, w') →
     Pandas.max (payload_mass <$> spacex_df g) = Some (payload_mass r) →
     (inject_Z (trunc (payload_mass r)) < payload_mass r)%Q →
     dispatch success_payload_scatter_chart (initial_controls g) g = (inr fig, g) →
     data_frame fig = Launches rows →
     r ∉ rows).
  { intros file_dir w w' g r fig rows Hinit Hmax Hlt Hrun Hframe Hin.
    destruct (Hbounds _ _ _ _ Hinit)
      as (rmin & rmax & _ & _ & _ & _ & Hmax' & _ & _ & _ & Hmx & _ & _ & _ & Hui).
    rewrite Hmax in Hmax'. injection Hmax' as Heq.
    rewrite Hui in Hrun.
    cbn [dispatch site_dropdown_value payload_slider_value] in Hrun.
    rewrite update_scatter_run, decide_False in Hrun by (intros H; by apply H).
    injection Hrun as <-. cbn in Hframe. injection Hframe as <-.
    apply list_elem_of_filter in Hin as [[_ Hhigh] _].
    rewrite Hmx, <- Heq in Hhigh.
    by apply Qle_not_lt in Hhigh. }
  split; [exact Hbounds|]. split; [exact Hgreatest|]. split; [exact Hout|].
  assert (Hinit : module_init "/app" example_world =
    (inr example_globals,
     {| fs := fs example_world;
        io_log := [EvExists "/app/spacex_launch_dash.csv";
                   EvReadCsv "/app/spacex_launch_dash.csv"] |}))
    by (vm_compute; reflexivity).
  assert (Hmax : Pandas.max (payload_mass <$> spacex_df example_globals)
                 = Some (payload_mass example_heaviest)) by reflexivity.
  assert (Hlt : (inject_Z (trunc (payload_mass example_heaviest))
                 < payload_mass example_heaviest)%Q) by reflexivity.
  assert (Hfrac : ∀ z, is_integer_part (payload_mass example_heaviest) z →
                       (inject_Z z < payload_mass example_heaviest)%Q).
  { intros z Hz. apply trunc_eq_iff in Hz as <-. exact Hlt. }
  assert (Hin : example_heaviest ∈ spacex_df example_globals)
    by (cbn; set_solver).
  assert (Hgreat : ∀ r', r' ∈ spacex_df example_globals →
                         (payload_mass r' <= payload_mass example_heaviest)%Q).
  { intros r'. cbn. rewrite !elem_of_cons, elem_of_nil.
    intros [->|[->|[->|[]]]]; cbn; unfold Qle; cbn; lia. }
  eexists "/app", example_world, _, example_globals, example_heaviest, _, _.
  split; [exact Hinit|]. split; [exact Hin|]. split; [exact Hgreat|].
  split; [exact Hmax|]. split; [exact Hlt|]. split; [exact Hfrac|].
  split; [apply update_scatter_run|].
  split; [reflexivity|].
  eapply (Hgreatest _ _ _ _ _ _ _ Hinit Hin Hgreat Hfrac);
    [apply update_scatter_run|reflexivity].
Qed.

Lemma slider_bounds_truncated_witness :
  module_init "/app" example_world =
    (inr example_globals,
     {| fs := fs example_world;
        io_log := [EvExists "/app/spacex_launch_dash.csv";
                   EvReadCsv "/app/spacex_launch_dash.csv"] |}) ∧
  ∃ rmin rmax,
    rmin ∈ spacex_df example_globals ∧ rmax ∈ spacex_df example_globals ∧
    (∀ r, r ∈ spacex_df example_globals →
          (payload_mass rmin <= payload_mass r)%Q ∧
          (payload_mass r <= payload_mass rmax)%Q) ∧
    is_integer_part (payload_mass rmin) (min_payload example_globals) ∧
    is_integer_part (payload_mass rmax) (max_payload example_globals) ∧
    rs_value (payload_slider_component (app_layout example_globals))
      = [min_payload example_globals; max_payload example_globals].
Proof.
  assert (H : module_init "/app" example_world =
    (inr example_globals,
     {| fs := fs example_world;
        io_log := [EvExists "/app/spacex_launch_dash.csv";
                   EvReadCsv "/app/spacex_launch_dash.csv"] |}))
    by (vm_compute; reflexivity).
  split; [exact H|].
  destruct (proj1 slider_bounds_truncated _ _ _ _ H)
    as (rmin & rmax & Hmin & Hmax & Hall & _ & _ & Hpmin & Hpmax & _ & _ & _ & _
        & Hvalue & _).
  exists rmin, rmax. split; [exact Hmin|]. split; [exact Hmax|].
  split; [exact Hall|]. split; [exact Hpmin|]. split; [exact Hpmax|]. exact Hvalue.
Defined.

(** * Further properties of the script *)

(** ** The order of strings *)

Lemma string_compare_trans (a b c : string) :
  String.compare a b ≠ Gt → String.compare b c ≠ Gt → String.compare a c ≠ Gt.
Proof.
  revert b c. induction a as [|x a IH]; intros [|y b] [|z c]; cbn; try done.
  unfold Ascii.compare.
  destruct (N.compare_spec (N_of_ascii x) (N_of_ascii y)) as [Hxy|Hxy|Hxy];
    destruct (N.compare_spec (N_of_ascii y) (N_of_ascii z)) as [Hyz|Hyz|Hyz];
    try done; intros H1 H2.
  - rewrite Hxy, Hyz, N.compare_refl. by eapply IH.
  - rewrite Hxy. by rewrite (proj2 (N.compare_lt_iff _ _) Hyz).
  - rewrite <- Hyz. by rewrite (proj2 (N.compare_lt_iff _ _) Hxy).
  - by rewrite (proj2 (N.compare_lt_iff _ _) (N.lt_trans _ _ _ Hxy Hyz)).
Qed.

#[local] Instance str_le_trans : Transitive Pandas.str_le.
Proof.
  intros a b c. unfold Pandas.str_le, String.leb. intros H1 H2.
  pose proof (string_compare_trans a b c) as H.
  destruct (String.compare a b), (String.compare b c), (String.compare a c);
    try done; exfalso; by apply H.
Qed.

#[local] Instance str_le_total : Total Pandas.str_le.
Proof. intros a b. apply String.leb_total. Qed.

Lemma sorted_StronglySorted (l : list string) :
  StronglySorted Pandas.str_le (Pandas.sorted l).
Proof. apply (StronglySorted_merge_sort _). Qed.

(** ** Pre-processing *)



(** ** Start-up, continued *)

Lemma module_init_csv (file_dir : string) (w : World) (raw : list CsvRow) :
  let path := os_path_join file_dir "spacex_launch_dash.csv" in
  fs w !! path = Some (CsvFile raw) →
  module_init file_dir w =
  (match payload_stats (preprocess raw) with
   | inl e => inl e
   | inr (mn, mx, (a, b, c)) => inr (make_globals path (preprocess raw) mn mx a b c)
   end, record (EvReadCsv path) (record (EvExists path) w)).
Proof.
  intros path Hnode.
  unfold module_init, mbind, M_bind, bind, os_path_exists, read_csv.
  cbv zeta. fold path. cbn [fs record].
  rewrite bool_decide_eq_true_2 by (by eexists). cbn [negb fs record].
  rewrite Hnode. unfold lift.
  by destruct (payload_stats (preprocess raw)) as [e|[[mn mx] [[a b] c]]].
Qed.

(** X2. A CSV file that has its header and no row makes start-up fail:
    the minimum payload is missing and [int()] of it raises [ValueError].
    So whenever start-up succeeds, the file had at least one row and
    [spacex_df] is the pre-processed file, row for row, and not empty. *)
Theorem startup_needs_rows (file_dir : string) (w : World) (raw : list CsvRow) :
  fs w !! os_path_join file_dir "spacex_launch_dash.csv" = Some (CsvFile raw) →
  (raw = [] →
   (module_init file_dir w).1 =
     inl (ValueError "cannot convert float NaN to integer")) ∧
  (∀ g, (module_init file_dir w).1 = inr g →
        raw ≠ [] ∧ spacex_df g ≠ [] ∧
        spacex_df g = preprocess raw ∧
        length (spacex_df g) = length raw).
Proof.
  intros Hnode. rewrite (module_init_csv _ _ _ Hnode). split.
  - intros ->. reflexivity.
  - intros g. cbn [fst].
    destruct (payload_stats (preprocess raw))
      as [e|[[mn mx] [[a b] c]]] eqn:Hstats; [discriminate|].
    intros [= <-]. cbn [spacex_df make_globals].
    assert (Hne : raw ≠ []) by (intros ->; discriminate Hstats).
    split; [exact Hne|]. split; [by destruct raw|].
    split; [reflexivity|]. unfold preprocess. apply length_fmap.
Qed.

Lemma startup_needs_rows_witness :
  fs example_world !! os_path_join "/app" "spacex_launch_dash.csv"
    = Some (CsvFile example_csv) ∧
  (module_init "/app" example_world).1 = inr example_globals ∧
  spacex_df example_globals ≠ [] ∧
  length (spacex_df example_globals) = length example_csv.
Proof.
  assert (H : fs example_world !! os_path_join "/app" "spacex_launch_dash.csv"
              = Some (CsvFile example_csv)) by reflexivity.
  assert (Hrun : (module_init "/app" example_world).1 = inr example_globals)
    by (vm_compute; reflexivity).
  split; [exact H|]. split; [exact Hrun|].
  destruct (proj2 (startup_needs_rows "/app" example_world example_csv H)
              example_globals Hrun) as (_ & Hne & _ & Hlen).
  split; [exact Hne|exact Hlen].
Defined.

(** ** The slider *)

Lemma payload_stats_quantiles (df : list LaunchRecord) (mn mx a b c : Z) :
  payload_stats df = inr (mn, mx, (a, b, c)) →
  ∃ qmin qmax v1 v2 v3,
    Pandas.min (payload_mass <$> df) = Some qmin ∧
    Pandas.max (payload_mass <$> df) = Some qmax ∧
    Pandas.quantile (payload_mass <$> df) (1 # 4) = Some v1 ∧
    Pandas.quantile (payload_mass <$> df) (1 # 2) = Some v2 ∧
    Pandas.quantile (payload_mass <$> df) (3 # 4) = Some v3 ∧
    mn = trunc qmin ∧ mx = trunc qmax ∧
    a = trunc v1 ∧ b = trunc v2 ∧ c = trunc v3.
Proof.
  unfold payload_stats. cbv zeta.
  destruct (Pandas.min (payload_mass <$> df)) as [qmin|]; [|discriminate].
  destruct (Pandas.max (payload_mass <$> df)) as [qmax|]; [|discriminate].
  destruct (Pandas.quantile (payload_mass <$> df) (1 # 4)) as [v1|]; [|discriminate].
  destruct (Pandas.quantile (payload_mass <$> df) (1 # 2)) as [v2|];
    [|discriminate].
  destruct (Pandas.quantile (payload_mass <$> df) (3 # 4)) as [v3|];
    [|discriminate].
  cbn. intros [= <- <- <- <- <-]. by exists qmin, qmax, v1, v2, v3.
Qed.

(** X4. After a successful start-up the slider is well formed: its minimum
    is at most its maximum, the three quartile marks lie between them, and
    every mark of the slider sits at a position within the bounds and is
    labelled with the decimal numeral of its position. *)
Theorem slider_marks_within_bounds (file_dir : string) (w w' : World) (g : Globals) :
  module_init file_dir w = (inr g, w') →
  let slider := payload_slider_component (app_layout g) in
  (rs_min slider ≤ rs_max slider)%Z ∧
  (min_payload g ≤ q1 g ≤ max_payload g)%Z ∧
  (min_payload g ≤ q2 g ≤ max_payload g)%Z ∧
  (min_payload g ≤ q3 g ≤ max_payload g)%Z ∧
  rs_min slider = min_payload g ∧ rs_max slider = max_payload g ∧
  ∀ k label, rs_marks slider !! k = Some label →
             (rs_min slider ≤ k ≤ rs_max slider)%Z ∧ label = pretty k.
Proof.
  intros Hinit slider.
  apply module_init_inv in Hinit as (raw & mn & mx & a & b & c & _ & Hstats & ->).
  apply payload_stats_quantiles in Hstats
    as (qmin & qmax & v1 & v2 & v3 & Hmin & Hmax & H1 & H2 & H3 & -> & -> & -> & -> & ->).
  assert (B1 := quantile_bounds _ (1 # 4) _ _ _ ltac:(done) ltac:(done) Hmin Hmax H1).
  assert (B2 := quantile_bounds _ (1 # 2) _ _ _ ltac:(done) ltac:(done) Hmin Hmax H2).
  assert (B3 := quantile_bounds _ (3 # 4) _ _ _ ltac:(done) ltac:(done) Hmin Hmax H3).
  destruct B1 as [B1l B1u], B2 as [B2l B2u], B3 as [B3l B3u].
  apply trunc_mono in B1l, B1u, B2l, B2u, B3l, B3u.
  subst slider. cbn.
  repeat (split; [lia|]).
  intros k label Hk.
  repeat (apply lookup_insert_Some in Hk as [[<- <-]|[_ Hk]]; [split; [lia|done]|]).
  by rewrite lookup_empty in Hk.
Qed.

Lemma slider_marks_within_bounds_witness :
  module_init "/app" example_world =
    (inr example_globals,
     {| fs := fs example_world;
        io_log := [EvExists "/app/spacex_launch_dash.csv";
                   EvReadCsv "/app/spacex_launch_dash.csv"] |}) ∧
  (min_payload example_globals ≤ q2 example_globals ≤ max_payload example_globals)%Z.
Proof.
  assert (H : module_init "/app" example_world =
    (inr example_globals,
     {| fs := fs example_world;
        io_log := [EvExists "/app/spacex_launch_dash.csv";
                   EvReadCsv "/app/spacex_launch_dash.csv"] |}))
    by (vm_compute; reflexivity).
  split; [exact H|].
  exact (proj1 (proj2 (proj2 (slider_marks_within_bounds _ _ _ _ H)))).
Defined.

Lemma filter_all {A} (P : A → Prop) `{!∀ x, Decision (P x)} (l : list A) :
  (∀ x, x ∈ l → P x) → filter P l = l.
Proof.
  induction l as [|a l IH]; intros HP; [done|].
  rewrite filter_cons_True by apply HP, list_elem_of_here.
  f_equal. apply IH. intros x Hx. by apply HP, list_elem_of_further.
Qed.

Lemma filter_none {A} (P : A → Prop) `{!∀ x, Decision (P x)} (l : list A) :
  (∀ x, x ∈ l → ¬ P x) → filter P l = [].
Proof.
  induction l as [|a l IH]; intros HP; [done|].
  rewrite filter_cons_False by apply HP, list_elem_of_here.
  apply IH. intros x Hx. by apply HP, list_elem_of_further.
Qed.

(** X5. When every payload mass of the table is a whole number, the
    scatter chart at the initial setting of the controls ('ALL', the full
    slider range) shows the whole table. *)
Theorem integer_payloads_all_shown (file_dir : string) (w w' : World) (g : Globals) :
  module_init file_dir w = (inr g, w') →
  (∀ r, r ∈ spacex_df g → (inject_Z (trunc (payload_mass r)) == payload_mass r)%Q) →
  ∃ fig,
    dispatch success_payload_scatter_chart (initial_controls g) g = (inr fig, g) ∧
    data_frame fig = Launches (spacex_df g).
Proof.
  intros Hinit Hint.
  apply module_init_inv in Hinit as (raw & mn & mx & a & b & c & _ & Hstats & ->).
  apply payload_stats_inv in Hstats as (qmin & qmax & Hmin & Hmax & -> & ->).
  cbn [spacex_df make_globals] in *.
  apply min_spec in Hmin as [Hmin_in Hmin]. apply max_spec in Hmax as [Hmax_in Hmax].
  apply list_elem_of_fmap in Hmin_in as (rmin & -> & Hrmin).
  apply list_elem_of_fmap in Hmax_in as (rmax & -> & Hrmax).
  eexists. unfold initial_controls. cbn [dispatch site_dropdown_value payload_slider_value
    app_layout make_globals build_layout payload_slider_component
    site_dropdown_component dd_value rs_value fmap list_fmap].
  rewrite update_scatter_run, decide_False by (intros H; by apply H).
  split; [reflexivity|]. cbn [spacex_df make_globals]. cbn. f_equal.
  apply filter_all. intros r Hr. split.
  - rewrite (Hint rmin Hrmin). apply Hmin. apply list_elem_of_fmap. by exists r.
  - rewrite (Hint rmax Hrmax). apply Hmax. apply list_elem_of_fmap. by exists r.
Qed.

Lemma integer_payloads_all_shown_witness :
  module_init "/app" fixture_world =
    (inr fixture_globals,
     {| fs := fs fixture_world;
        io_log := [EvExists "/app/spacex_launch_dash.csv";
                   EvReadCsv "/app/spacex_launch_dash.csv"] |}) ∧
  (∀ r, r ∈ spacex_df fixture_globals →
        (inject_Z (trunc (payload_mass r)) == payload_mass r)%Q) ∧
  ∃ fig,
    dispatch success_payload_scatter_chart (initial_controls fixture_globals)
      fixture_globals = (inr fig, fixture_globals) ∧
    data_frame fig = Launches (spacex_df fixture_globals).
Proof.
  assert (H : module_init "/app" fixture_world =
    (inr fixture_globals,
     {| fs := fs fixture_world;
        io_log := [EvExists "/app/spacex_launch_dash.csv";
                   EvReadCsv "/app/spacex_launch_dash.csv"] |}))
    by (vm_compute; reflexivity).
  assert (Hint : ∀ r, r ∈ spacex_df fixture_globals →
            (inject_Z (trunc (payload_mass r)) == payload_mass r)%Q).
  { intros r. cbn. rewrite !elem_of_cons, elem_of_nil.
    intros [->|[->|[]]]; reflexivity. }
  split; [exact H|]. split; [exact Hint|].
  exact (integer_payloads_all_shown _ _ _ _ H Hint).
Defined.

(** ** The options of the drop-down *)


(** ** The scatter callback, continued *)

(** X7. [update_scatter] returns a figure exactly when the payload range
    has two elements; on any other list the unpacking of the range raises
    [ValueError]. In both cases the globals are left as they were. *)
Theorem update_scatter_unpack (g : Globals) (site : option string) (range : list Q) :
  ((∃ fig, update_scatter site range g = (inr fig, g)) ↔ length range = 2%nat) ∧
  ((∃ msg, update_scatter site range g = (inl (ValueError msg), g))
     ↔ length range ≠ 2%nat).
Proof.
  destruct range as [|low [|high [|more range]]].
  - split; split; try done.
    + intros [fig H]. discriminate H.
    + intros _. by eexists.
  - split; split; try done.
    + intros [fig H]. discriminate H.
    + intros _. by eexists.
  - rewrite update_scatter_run. split; split; try done.
    + intros _. by eexists.
    + intros [msg H]. discriminate H.
  - split; split; try done.
    + intros [fig H]. discriminate H.
    + intros _. by eexists.
Qed.

(** X8. A payload range whose lower end is above its upper end selects
    nothing: the scatter chart is over the empty frame. *)
Theorem inverted_range_empty (g : Globals) (site : option string) (low high : Q) :
  (high < low)%Q →
  ∃ fig, update_scatter site [low; high] g = (inr fig, g) ∧
         data_frame fig = Launches [].
Proof.
  intros Hlt. eexists. rewrite update_scatter_run, scatter_rows_filter.
  split; [reflexivity|]. cbn. f_equal.
  apply filter_none. intros r _ [[Hlo Hhi] _].
  apply (Qlt_not_le _ _ Hlt). by eapply Qle_trans.
Qed.

Lemma inverted_range_empty_witness :
  (0 < 9600)%Q ∧
  ∃ fig, update_scatter (Some "ALL") [9600; 0]%Q example_globals
           = (inr fig, example_globals) ∧
         data_frame fig = Launches [].
Proof.
  assert (H : (0 < 9600)%Q) by reflexivity.
  split; [exact H|].
  exact (inverted_range_empty example_globals (Some "ALL") 9600 0 H).
Defined.

Lemma scatter_rows_spec (g : Globals) (site : option string) (low high : Q) :
  scatter_rows g site low high = filter (shown_in_scatter site low high) (spacex_df g).
Proof.
  unfold scatter_rows. rewrite update_scatter_run, scatter_rows_filter. reflexivity.
Qed.

(** X9. Narrowing the slider filters what was shown: the records charted
    for an inner range are those charted for the outer range whose payload
    lies in the inner range, in the same order. *)
Theorem narrowing_range (g : Globals) (site : option string)
    (low high low' high' : Q) :
  (low <= low')%Q → (high' <= high)%Q →
  scatter_rows g site low' high' =
    filter (λ r, (low' <= payload_mass r)%Q ∧ (payload_mass r <= high')%Q)
      (scatter_rows g site low high) ∧
  scatter_rows g site low' high' `sublist_of` scatter_rows g site low high.
Proof.
  intros Hlo Hhi.
  assert (Heq : scatter_rows g site low' high' =
            filter (λ r, (low' <= payload_mass r)%Q ∧ (payload_mass r <= high')%Q)
              (scatter_rows g site low high)).
  { rewrite !scatter_rows_spec, list_filter_filter.
    apply list_filter_iff. intros r. unfold shown_in_scatter, in_payload_range.
    split.
    - intros [[H1 H2] H3]. repeat split; try done.
      + by eapply Qle_trans.
      + by eapply Qle_trans.
    - intros [[H1 H2] [_ H3]]. by repeat split. }
  split; [exact Heq|]. rewrite Heq. apply sublist_filter.
Qed.

Lemma narrowing_range_witness :
  (0 <= 1000)%Q ∧ (3000 <= 9600)%Q ∧
  scatter_rows example_globals (Some "ALL") 1000 3000
    `sublist_of` scatter_rows example_globals (Some "ALL") 0 9600.
Proof.
  assert (H1 : (0 <= 1000)%Q) by discriminate.
  assert (H2 : (3000 <= 9600)%Q) by discriminate.
  split; [exact H1|]. split; [exact H2|].
  exact (proj2 (narrowing_range example_globals (Some "ALL") 0 9600 1000 3000 H1 H2)).
Defined.

(** X10. A selection that is neither 'ALL' nor the site of any record, in
    particular the cleared drop-down, gives a pie and a scatter over the
    empty frame: it does not fall back to all sites. *)
Theorem unknown_site_empty (g : Globals) (site : option string) (low high : Q) :
  site ≠ Some "ALL" →
  (∀ r, r ∈ spacex_df g → Some (launch_site r) ≠ site) →
  (∃ fig, build_pie site g = (inr fig, g) ∧ data_frame fig = Launches [] ∧
          title fig = "Success vs Failure for " ++ str_opt site) ∧
  (∃ fig, update_scatter site [low; high] g = (inr fig, g) ∧
          data_frame fig = Launches []).
Proof.
  intros Hsite Hnone.
  assert (Hempty : ∀ df : list LaunchRecord,
            (∀ r, r ∈ df → r ∈ spacex_df g) → filter (at_site site) df = []).
  { intros df Hsub. apply filter_none. intros r Hr. by apply Hnone, Hsub. }
  split.
  - eexists. rewrite build_pie_run, decide_False by done.
    split; [reflexivity|]. cbn. rewrite Hempty by done. done.
  - eexists. rewrite update_scatter_run, decide_True by done.
    split; [reflexivity|]. cbn. rewrite Hempty; [done|].
    intros r [_ Hr]%list_elem_of_filter. exact Hr.
Qed.

Lemma unknown_site_empty_witness :
  None ≠ Some "ALL" ∧
  (∀ r, r ∈ spacex_df example_globals → Some (launch_site r) ≠ None) ∧
  ∃ fig, build_pie None example_globals = (inr fig, example_globals) ∧
         data_frame fig = Launches [] ∧
         title fig = "Success vs Failure for None".
Proof.
  assert (H1 : None ≠ Some "ALL") by discriminate.
  assert (H2 : ∀ r, r ∈ spacex_df example_globals → Some (launch_site r) ≠ None)
    by (intros r _; discriminate).
  split; [exact H1|]. split; [exact H2|].
  exact (proj1 (unknown_site_empty example_globals None 0 1 H1 H2)).
Defined.

(** ** Sums over the sites *)





(** ** The pies, continued *)

Lemma length_filter_or {A} (P1 P2 : A → Prop)
    `{!∀ x, Decision (P1 x), !∀ x, Decision (P2 x)} (l : list A) :
  (∀ x, P1 x → P2 x → False) →
  length (filter (λ x, P1 x ∨ P2 x) l)
  = (length (filter P1 l) + length (filter P2 l))%nat.
Proof.
  intros Hdisj. induction l as [|a l IH]; [done|].
  rewrite !filter_cons.
  destruct (decide (P1 a)) as [H1|H1], (decide (P2 a)) as [H2|H2].
  - destruct (Hdisj a H1 H2).
  - rewrite decide_True by tauto. cbn. lia.
  - rewrite decide_True by tauto. cbn. lia.
  - rewrite decide_False by tauto. lia.
Qed.

(** X12. In the pie of one site, a record whose class is neither 0 nor 1
    is counted in neither sector: Success and Failure together count the
    records of the site with class 0 or 1, and so all records of the site
    when every class of the table is 0 or 1. *)
Theorem one_site_sectors_total (g : Globals) (site : option string) :
  preprocessed (spacex_df g) → site ≠ Some "ALL" →
  ∃ fig s f,
    build_pie site g = (inr fig, g) ∧
    pie_sector fig (CCat (Some Success)) = Some s ∧
    pie_sector fig (CCat (Some Failure)) = Some f ∧
    (s + f)%Z = Z.of_nat (length
      (filter (λ r, Some (launch_site r) = site ∧ (class r = 1 ∨ class r = 0))
         (spacex_df g))) ∧
    ((∀ r, r ∈ spacex_df g → class r = 1 ∨ class r = 0) →
     (s + f)%Z = Z.of_nat (length
       (filter (λ r, Some (launch_site r) = site) (spacex_df g)))).
Proof.
  intros Hpre Hsite.
  set (rows := filter (at_site site) (spacex_df g)).
  assert (Hrows : ∀ r, r ∈ rows → r ∈ spacex_df g).
  { intros r [_ Hr]%list_elem_of_filter. exact Hr. }
  assert (Hsum :
    (Z.of_nat (length (filter (λ r, outcome r = Some Success) rows))
     + Z.of_nat (length (filter (λ r, outcome r = Some Failure) rows)))%Z
    = Z.of_nat (length
        (filter (λ r, Some (launch_site r) = site ∧ (class r = 1 ∨ class r = 0))
           (spacex_df g)))).
  { rewrite <- Nat2Z.inj_add. f_equal.
    rewrite (length_filter_ext_in (λ r, outcome r = Some Success)
               (λ r, class r = 1) rows)
      by (intros r Hr; apply (preprocessed_outcome _ r Hpre), Hrows, Hr).
    rewrite (length_filter_ext_in (λ r, outcome r = Some Failure)
               (λ r, class r = 0) rows)
      by (intros r Hr; apply (preprocessed_outcome _ r Hpre), Hrows, Hr).
    rewrite <- length_filter_or by (intros; lia).
    unfold rows. rewrite list_filter_filter. f_equal.
    apply list_filter_iff. intros r. unfold at_site. tauto. }
  eexists _, _, _. rewrite build_pie_run, decide_False by done.
  split; [reflexivity|]. fold rows.
  split; [apply pie_sector_one_site|]. split; [apply pie_sector_one_site|].
  split; [exact Hsum|].
  intros Hclass. rewrite Hsum. f_equal. apply length_filter_ext_in.
  intros r Hr. specialize (Hclass r Hr). tauto.
Qed.

Lemma one_site_sectors_total_witness :
  preprocessed (spacex_df example_globals) ∧
  Some "CCAFS LC-40" ≠ Some "ALL" ∧
  ∃ fig s f,
    build_pie (Some "CCAFS LC-40") example_globals = (inr fig, example_globals) ∧
    pie_sector fig (CCat (Some Success)) = Some s ∧
    pie_sector fig (CCat (Some Failure)) = Some f ∧
    (s + f)%Z = 2.
Proof.
  assert (Hpre : preprocessed (spacex_df example_globals))
    by (exists example_csv; reflexivity).
  assert (Hsite : Some "CCAFS LC-40" ≠ Some "ALL") by discriminate.
  split; [exact Hpre|]. split; [exact Hsite|].
  destruct (one_site_sectors_total example_globals (Some "CCAFS LC-40") Hpre Hsite)
    as (fig & s & f & Hrun & Hs & Hf & Hsum & _).
  exists fig, s, f. split; [exact Hrun|]. split; [exact Hs|]. split; [exact Hf|].
  rewrite Hsum. reflexivity.
Defined.

Lemma weighted_count_absent (counts : list (string * nat)) (s : string) :
  s ∉ counts.*1 →
  weighted_count (CStr s) ((λ r, CStr r.1) <$> counts)
    (cell_weight <$> ((λ r, CInt (Z.of_nat r.2)) <$> counts)) = 0.
Proof.
  induction counts as [|[k m] counts IH]; [done|]. cbn.
  rewrite elem_of_cons. intros Hn.
  rewrite decide_False by (intros [= ->]; tauto).
  rewrite IH by tauto. done.
Qed.

Lemma weighted_count_groupby {A} (key : A → string) (df : list A) (s : string) :
  weighted_count (CStr s) ((λ r, CStr r.1) <$> Pandas.groupby_size key df)
    (cell_weight <$> ((λ r, CInt (Z.of_nat r.2)) <$> Pandas.groupby_size key df))
  = Z.of_nat (Pandas.group_size key df s).
Proof.
  destruct (decide (s ∈ (Pandas.groupby_size key df).*1)) as [Hin|Hin].
  - apply weighted_count_counts.
    + rewrite groupby_size_keys. apply group_keys_NoDup.
    + rewrite groupby_size_keys in Hin. unfold Pandas.groupby_size.
      apply list_elem_of_fmap. by exists s.
  - rewrite weighted_count_absent by done.
    rewrite groupby_size_keys, elem_of_group_keys in Hin.
    unfold Pandas.group_size. rewrite filter_none; [done|].
    intros r Hr Hk. apply Hin. by exists r.
Qed.

(** X13. The two pies agree: for every site name other than 'ALL', the
    sector of that site in the 'ALL' pie has the value of the Success
    sector in the pie of that site (0 when the site has no success). *)
Theorem all_pie_matches_site_pie (g : Globals) (s : string) :
  preprocessed (spacex_df g) → s ≠ "ALL" →
  ∃ fig_all fig_site,
    build_pie (Some "ALL") g = (inr fig_all, g) ∧
    build_pie (Some s) g = (inr fig_site, g) ∧
    pie_sector fig_all (CStr s) = pie_sector fig_site (CCat (Some Success)).
Proof.
  intros Hpre Hs. eexists _, _.
  rewrite !build_pie_run, decide_True by done.
  rewrite decide_False by congruence.
  split; [reflexivity|]. split; [reflexivity|].
  rewrite pie_sector_all_sites, pie_sector_one_site, weighted_count_groupby.
  do 2 f_equal. rewrite successes_at_site, list_filter_filter.
  apply length_filter_ext_in. intros r Hr.
  destruct (preprocessed_outcome _ r Hpre Hr) as [HS _].
  unfold at_site. rewrite HS. split; intros [H1 H2]; split; congruence.
Qed.

Lemma all_pie_matches_site_pie_witness :
  preprocessed (spacex_df example_globals) ∧ "KSC LC-39A" ≠ "ALL" ∧
  ∃ fig_all fig_site,
    build_pie (Some "ALL") example_globals = (inr fig_all, example_globals) ∧
    build_pie (Some "KSC LC-39A") example_globals = (inr fig_site, example_globals) ∧
    pie_sector fig_all (CStr "KSC LC-39A")
      = pie_sector fig_site (CCat (Some Success)).
Proof.
  assert (Hpre : preprocessed (spacex_df example_globals))
    by (exists example_csv; reflexivity).
  assert (Hs : "KSC LC-39A" ≠ "ALL") by discriminate.
  split; [exact Hpre|]. split; [exact Hs|].
  exact (all_pie_matches_site_pie example_globals "KSC LC-39A" Hpre Hs).
Defined.

(** X14. The rows of the 'ALL' pie are in ascending order of site name,
    and every row has a count of at least 1: a site without a successful
    launch gets no sector. *)
Theorem all_pie_rows_sorted_positive (g : Globals) :
  ∃ fig counts,
    build_pie (Some "ALL") g = (inr fig, g) ∧
    data_frame fig = Counts counts ∧
    StronglySorted (λ a b, String.leb a b = true) counts.*1 ∧
    (∀ s n, (s, n) ∈ counts → (1 ≤ n)%nat) ∧
    (∀ s, (∀ r, r ∈ spacex_df g → launch_site r = s → class r ≠ 1) →
          s ∉ counts.*1).
Proof.
  eexists _, _. rewrite build_pie_run, decide_True by done.
  split; [reflexivity|]. split; [reflexivity|].
  rewrite groupby_size_keys. split; [apply sorted_StronglySorted|]. split.
  - intros s n [-> (r & Hr & Hk)]%elem_of_groupby_size.
    unfold Pandas.group_size.
    assert (Hin : r ∈ filter (λ r0, launch_site r0 = s)
                        (filter successful (spacex_df g)))
      by (by apply list_elem_of_filter).
    destruct (filter (λ r0, launch_site r0 = s) (filter successful (spacex_df g)));
      [by apply elem_of_nil in Hin|cbn; lia].
  - intros s Hnone (r & [Hc Hr]%list_elem_of_filter & Hk)%elem_of_group_keys.
    by apply (Hnone r Hr Hk).
Qed.
